(** * kobo2notion: a shallow embedding of [kobo2notion.py]

    The script copies the e-reader's SQLite file, reads the bookmark rows,
    publishes every row newer than the stored [delta_date] as a Notion page
    and writes the newest date back to [config.yaml].

    Conventions of the embedding:
    - a Python [str] is a [string]; [<], [>] on [str] is [String.ltb]
      (lexicographic, character by character, a proper prefix is smaller);
    - a value that may be [None] is an [option];
    - the file system is a finite map from paths to files;
    - effects (logging, HTTP, sleeping, files, the global [config]) are
      threaded through a state; an exception, [exit()] and a loop that has
      not finished within the given number of iterations are outcomes. *)

From Stdlib Require Import String Ascii List Arith NArith ZArith Lia DecimalString.
From stdpp Require Import base option gmap strings.

Local Open Scope string_scope.
Local Open Scope nat_scope.
Local Open Scope list_scope.

(** ** Python values used by the script *)

Module Py.

(** [s1 + s2] on [str]. *)
Fixpoint cat (s1 s2 : string) : string :=
  match s1 with
  | EmptyString => s2
  | String c s1' => String c (cat s1' s2)
  end.

(** [s1 > s2] on [str]. *)
Definition gt (s1 s2 : string) : bool := String.ltb s2 s1.

(** Truthiness of a [str]: only the empty string is false. *)
Definition truthy (s : string) : bool :=
  match s with EmptyString => false | String _ _ => true end.

(** [range(start, stop, step)] for [step > 0]: CPython computes the number
    of elements as [(stop - start + step - 1) // step]. *)
Definition range (start stop step : nat) : list nat :=
  map (fun k => start + k * step) (seq 0 ((stop - start + step - 1) / step)).

(** [s[i:j]] for [0 <= i <= j]: out-of-range bounds are clipped. *)
Definition slice (s : string) (i j : nat) : string := substring i (j - i) s.

(** [str(n)] for a non-negative [int]. *)
Definition str_of_nat (n : nat) : string := NilEmpty.string_of_uint (Nat.to_uint n).

(** [f'{v}'] of a value that is a [str] or [None]. *)
Definition fmt (v : option string) : string :=
  match v with Some s => s | None => "None" end.

Definition is_lower (c : ascii) : bool :=
  let n := nat_of_ascii c in (97 <=? n) && (n <=? 122).
Definition is_upper (c : ascii) : bool :=
  let n := nat_of_ascii c in (65 <=? n) && (n <=? 90).
Definition upper (c : ascii) : ascii :=
  if is_lower c then ascii_of_nat (nat_of_ascii c - 32) else c.
Definition lower (c : ascii) : ascii :=
  if is_upper c then ascii_of_nat (nat_of_ascii c + 32) else c.

Fixpoint map_string (f : ascii -> ascii) (s : string) : string :=
  match s with
  | EmptyString => EmptyString
  | String c s' => String (f c) (map_string f s')
  end.

(** [s.capitalize()] on ASCII text: first character upper case, the rest
    lower case. *)
Definition capitalize (s : string) : string :=
  match s with
  | EmptyString => EmptyString
  | String c s' => String (upper c) (map_string lower s')
  end.

(** The ASCII characters [str.isspace] accepts. *)
Definition is_space (c : ascii) : bool :=
  let n := nat_of_ascii c in
  (n =? 32) || ((9 <=? n) && (n <=? 13)) || ((28 <=? n) && (n <=? 31)).

Fixpoint lstrip (s : string) : string :=
  match s with
  | EmptyString => EmptyString
  | String c s' => if is_space c then lstrip s' else s
  end.

Fixpoint rstrip (s : string) : string :=
  match s with
  | EmptyString => EmptyString
  | String c s' =>
      match rstrip s' with
      | EmptyString => if is_space c then EmptyString else String c EmptyString
      | r => String c r
      end
  end.

(** [s.strip()]. *)
Definition strip (s : string) : string := rstrip (lstrip s).

(** [os.path.join(a, b)] of [posixpath]. *)
Definition path_join (a b : string) : string :=
  if String.prefix "/" b then b
  else match a with
       | EmptyString => b
       | _ => if String.eqb (substring (String.length a - 1) 1 a) "/"
              then cat a b else cat a (cat "/" b)
       end.

(** The exceptions the script can meet. *)
Inductive exn :=
| ValueError (msg : string)
| TypeError
| AttributeError
| NameError
| KeyError
| OSError
| DatabaseError.

(** A pure computation that may raise. *)
Inductive result (A : Type) :=
| Ok (a : A)
| Raise (e : exn).
Arguments Ok {A} a.
Arguments Raise {A} e.

End Py.

(** ** [datetime]: the fields the script reads back through [strftime]

    The microsecond and the time zone of a [datetime] object are never read
    by the script: the format of [strftime] names neither. *)

Record datetime := mk_datetime {
  year : N; month : N; day : N;
  hour : N; minute : N; second : N
}.

Section Calendar.
Local Open Scope N_scope.

Definition is_leap (y : N) : bool :=
  (y mod 4 =? 0) && (negb (y mod 100 =? 0) || (y mod 400 =? 0)).

Definition days_in_month (y m : N) : N :=
  match m with
  | 1 | 3 | 5 | 7 | 8 | 10 | 12 => 31
  | 4 | 6 | 9 | 11 => 30
  | 2 => if is_leap y then 29 else 28
  | _ => 0
  end.

(** The range checks of the [datetime] constructor (MINYEAR = 1,
    MAXYEAR = 9999). *)
Definition valid_datetime (d : datetime) : bool :=
  (1 <=? year d) && (year d <=? 9999) &&
  (1 <=? month d) && (month d <=? 12) &&
  (1 <=? day d) && (day d <=? days_in_month (year d) (month d)) &&
  (hour d <? 24) && (minute d <? 60) && (second d <? 60).

(** Days before January 1st of year [y], as CPython's
    [_days_before_year]. *)
Definition days_before_year (y : N) : N :=
  let p := y - 1 in p * 365 + p / 4 - p / 100 + p / 400.

(** CPython's table [_DAYS_BEFORE_MONTH]. *)
Definition DAYS_BEFORE_MONTH (m : N) : N :=
  match m with
  | 1 => 0 | 2 => 31 | 3 => 59 | 4 => 90 | 5 => 120 | 6 => 151
  | 7 => 181 | 8 => 212 | 9 => 243 | 10 => 273 | 11 => 304 | 12 => 334
  | _ => 0
  end.

(** Days of year [y] before the first of month [m], as CPython's
    [_days_before_month]. *)
Definition days_before_month (y m : N) : N :=
  DAYS_BEFORE_MONTH m + (if (2 <? m) && is_leap y then 1 else 0).

(** [d.toordinal()]: day number in the proleptic Gregorian calendar. *)
Definition toordinal (d : datetime) : N :=
  days_before_year (year d) + days_before_month (year d) (month d) + day d.

(** The position of [d] on the time line, in seconds. *)
Definition instant (d : datetime) : N :=
  toordinal d * 86400 + hour d * 3600 + minute d * 60 + second d.

Definition digit (n : N) : ascii := ascii_of_N (48 + n mod 10).

(** [%m], [%d], [%H], [%M], [%S]: two digits, zero padded. *)
Definition pad2 (n : N) : string :=
  String (digit (n / 10)) (String (digit n) EmptyString).

(** Four digits, zero padded. *)
Definition pad4 (n : N) : string := Py.cat (pad2 (n / 100)) (pad2 (n mod 100)).

(** [%Y] as the C library prints it under CPython on Linux: the year in
    decimal and not padded, so a year below 1000 has fewer than four digits
    ([datetime(999, 12, 31).strftime('%Y')] is ['999']). Years of a
    [datetime] have at most four digits. *)
Definition year_text (y : N) : string :=
  if y <? 10 then String (digit y) EmptyString
  else if y <? 100 then pad2 y
  else if y <? 1000 then String (digit (y / 100)) (pad2 (y mod 100))
  else pad4 y.

Definition is_digit (c : ascii) : bool :=
  let n := N_of_ascii c in (48 <=? n) && (n <=? 57).

End Calendar.

(** [d.strftime('%Y-%m-%d %H:%M:%S')]. *)
Definition strftime (d : datetime) : string :=
  Py.cat (year_text (year d)) (Py.cat "-" (Py.cat (pad2 (month d)) (Py.cat "-"
  (Py.cat (pad2 (day d)) (Py.cat " " (Py.cat (pad2 (hour d)) (Py.cat ":"
  (Py.cat (pad2 (minute d)) (Py.cat ":" (pad2 (second d))))))))))).

(** The shape [YYYY-MM-DD HH:MM:SS]: nineteen characters, digits everywhere
    but at the five separators. *)
Fixpoint has_shape (pattern s : string) : bool :=
  match pattern, s with
  | EmptyString, EmptyString => true
  | String p pattern', String c s' =>
      (if Ascii.eqb p "9" then is_digit c else Ascii.eqb p c) && has_shape pattern' s'
  | _, _ => false
  end.

Definition is_canonical (s : string) : bool := has_shape "9999-99-99 99:99:99" s.

(** The two parsers of the [datetime] library that [convert_date] calls.
    They are library code: the embedding takes them as an interface. *)
Class DatetimeLib := {
  (** [datetime.fromisoformat(s)]; [None] stands for [ValueError]. *)
  fromisoformat : string -> option datetime;
  (** [datetime.strptime(s, fmt)]; [None] stands for [ValueError]. *)
  strptime : string -> string -> option datetime
}.

(** What the script relies on: both parsers build [datetime] objects, which
    are range checked, and [fromisoformat] reads [YYYY-MM-DD HH:MM:SS], the
    text [strftime] writes for a year of four digits. *)
Class DatetimeLibSpec (L : DatetimeLib) := {
  fromisoformat_valid :
    forall s d, fromisoformat s = Some d -> valid_datetime d = true;
  strptime_valid :
    forall s f d, strptime s f = Some d -> valid_datetime d = true;
  fromisoformat_strftime :
    forall d, valid_datetime d = true -> (1000 <=? year d)%N = true ->
              fromisoformat (strftime d) = Some d
}.

(** ** Constants of the script *)

Definition NODELTA_DATE : string := "1970-01-01 00:00:00".
Definition PAGES_URL : string := "https://api.notion.com/v1/pages".

(** ** [convert_date] *)

Definition convert_date `{DatetimeLib} (date_str : string) : Py.result string :=
  match fromisoformat date_str with
  | Some date_obj => Py.Ok (strftime date_obj)
  | None =>
      match strptime date_str "%Y-%m-%dT%H:%M:%SZ" with
      | Some date_obj => Py.Ok (strftime date_obj)
      | None => Py.Raise (Py.ValueError "Invalid date format")
      end
  end.

(** ** The world the script runs in *)

(** One row of the join query: ten columns, each text or NULL. *)
Record Row := mk_Row {
  VolumeID : option string;
  Type_ : option string;
  Text : option string;
  Annotation : option string;
  ExtraAnnotationData : option string;
  DateCreated : option string;
  DateModified : option string;
  BookTitle : option string;
  Title : option string;
  Attribution : option string
}.

(** [config.yaml] after [yaml.safe_load]: [config[section][key]]. *)
Record Config := mk_Config {
  kobo_database_path : string;
  kobo_database_cache : string;
  notion_integration_token : string;
  notion_parent_page : string;
  notion_icon : string;
  (** [str(config['kobo2notion']['delta_date'])] *)
  kobo2notion_delta_date : string
}.

(** What a path can hold. [Sqlite q]: an SQLite file, [q] the outcome of the
    join query on it ([None]: the query fails, as on missing tables or a
    locked file). *)
Inductive file :=
| Sqlite (q : option (list Row))
| Yaml (c : Config)
| Blob (s : string).

Inductive level := INFO | ERROR.

(** The json body of the page request. *)
Record annotations := { italic : bool }.
Record text_object := {
  content : string;
  text_annotations : option annotations
}.
(** A paragraph block and its ['rich_text'] list. *)
Record block := { rich_text : list text_object }.
Record page_data := {
  parent_page_id : string;
  icon_emoji : string;
  properties_title : list string;
  children : list block
}.

Record response := { status_code : nat; text : string }.

(** What the outside sees of a run, in order. *)
Inductive event :=
| Log (lvl : level) (msg : string) (args : list Py.exn)
    (* [logging.info(msg)], [logging.error(msg, *args)] *)
| Post (url : string) (headers : list (string * string)) (json : page_data)
       (resp : response)
| Sleep (secs : nat).

Record state := mk_state {
  fs : gmap string file;
  (** the global [config], [None] before it is loaded *)
  config : option Config;
  trace : list event;
  (** number of requests sent so far *)
  posts : nat
}.

(** How a call ends. [Unfinished]: the retry loop was still running after
    the iterations it was given. *)
Inductive outcome (A : Type) :=
| Returned (a : A)
| Raised (e : Py.exn)
| Exited
| Unfinished.
Arguments Returned {A} a.
Arguments Raised {A} e.
Arguments Exited {A}.
Arguments Unfinished {A}.

Definition M (A : Type) : Type := state -> outcome A * state.

Definition ret {A} (a : A) : M A := fun st => (Returned a, st).

Definition bind {A B} (m : M A) (k : A -> M B) : M B :=
  fun st =>
    match m st with
    | (Returned a, st') => k a st'
    | (Raised e, st') => (Raised e, st')
    | (Exited, st') => (Exited, st')
    | (Unfinished, st') => (Unfinished, st')
    end.

Notation "'do' x <- m ; k" := (bind m (fun x => k))
  (at level 10, x name, m at level 100, k at level 200).
Notation "m ;; k" := (bind m (fun _ => k))
  (at level 100, k at level 200, right associativity).

Definition raise {A} (e : Py.exn) : M A := fun st => (Raised e, st).
Definition exit {A} : M A := fun st => (Exited, st).

Definition lift {A} (r : Py.result A) : M A :=
  match r with Py.Ok a => ret a | Py.Raise e => raise e end.

Definition emit (e : event) : M unit :=
  fun st => (Returned tt,
             {| fs := fs st; config := config st;
                trace := trace st ++ [e]; posts := posts st |}).

Definition logging_info (msg : string) : M unit := emit (Log INFO msg []).
Definition logging_error (msg : string) (args : list Py.exn) : M unit :=
  emit (Log ERROR msg args).
Definition time_sleep (secs : nat) : M unit := emit (Sleep secs).

Definition get_fs : M (gmap string file) := fun st => (Returned (fs st), st).
Definition put_fs (f : gmap string file) : M unit :=
  fun st => (Returned tt,
             {| fs := f; config := config st; trace := trace st; posts := posts st |}).
Definition put_config (c : Config) : M unit :=
  fun st => (Returned tt,
             {| fs := fs st; config := Some c; trace := trace st; posts := posts st |}).
(** Reading the global [config]. *)
Definition get_config : M Config :=
  fun st => match config st with
            | Some c => (Returned c, st)
            | None => (Raised Py.NameError, st)
            end.

Definition os_path_exists (path : string) : M bool :=
  do f <- get_fs; ret (bool_decide (is_Some (f !! path))).
Definition os_remove (path : string) : M unit :=
  do f <- get_fs;
  match f !! path with
  | Some _ => put_fs (delete path f)
  | None => raise Py.OSError
  end.
Definition shutil_copy (src dst : string) : M unit :=
  do f <- get_fs;
  match f !! src with
  | Some x => put_fs (<[dst := x]> f)
  | None => raise Py.OSError
  end.

(** The immutable globals set at start-up. *)
Record Globals := {
  parent_page : string;
  icon : string;
  HEADERS : list (string * string)
}.

(** ** [Item] *)

Record Item := {
  volumeid : option string;
  type : option string;
  text_ : option string;
  annotation : option string;
  extraannotationdata : option string;
  datecreated : string;
  datemodified : string;
  booktitle : option string;
  title : option string;
  author : option string
}.

(** [Item.__init__] *)
Definition Item_init (values : Row) : Item :=
  {| volumeid := VolumeID values;
     type := Type_ values;
     text_ := Text values;
     annotation := Annotation values;
     extraannotationdata := ExtraAnnotationData values;
     datecreated := match DateCreated values with
                    | Some v => v | None => NODELTA_DATE end;
     datemodified := match DateModified values with
                     | Some v => v | None => NODELTA_DATE end;
     booktitle := BookTitle values;
     title := Title values;
     author := Attribution values |}.

(** [Item.to_dict]: the dictionary has one key per attribute, so it is the
    same record. *)
Definition to_dict (self : Item) : Item := self.

Definition dquote : string := String "034"%char EmptyString.

Section Script.

Context `{DatetimeLib}.
(** Directory of the script. *)
Variable SCRIPT_DIR : string.
(** The remote service: the answer to the n-th request sent. *)
Variable remote : nat -> response.

(** [requests.post(url, headers=headers, json=data)] *)
Definition requests_post (url : string) (headers : list (string * string))
    (data : page_data) : M response :=
  fun st =>
    let resp := remote (posts st) in
    (Returned resp,
     {| fs := fs st; config := config st;
        trace := trace st ++ [Post url headers data resp];
        posts := S (posts st) |}).

(** ** [copy_database] *)
Definition copy_database (database_path database_cache : string) : M unit :=
  do found <- os_path_exists database_path;
  if found then
    logging_info "Retrieving database from e-reader";;
    do cached <- os_path_exists database_cache;
    (if cached then os_remove database_cache else ret tt);;
    shutil_copy database_path database_cache
  else
    logging_error "Database not found, is your e-reader connected?" [];;
    exit.

(** ** [create_notion_page] *)

Definition paragraph (block_content : string) : block :=
  {| rich_text := [ {| content := block_content; text_annotations := None |} ] |}.

Definition source_paragraph (source_content : string) : block :=
  {| rich_text := [ {| content := source_content;
                       text_annotations := Some {| italic := true |} |} ] |}.

(** [[main_content[i:i+2000] for i in range(0, len(main_content), 2000)]] *)
Definition content_blocks (main_content : string) : list string :=
  map (fun i => Py.slice main_content i (i + 2000))
      (Py.range 0 (String.length main_content) 2000).

(** The [while True] loop, run for at most [fuel] iterations. *)
Fixpoint post_until_created (fuel : nat) (g : Globals) (title_content : string)
    (data : page_data) : M unit :=
  match fuel with
  | 0 => fun st => (Unfinished, st)
  | S fuel' =>
      do response <- requests_post PAGES_URL (HEADERS g) data;
      if status_code response =? 200 then
        logging_info (Py.cat "Created " (Py.cat dquote (Py.cat title_content dquote)))
      else
        logging_error (Py.cat (Py.str_of_nat (status_code response))
                              (Py.cat ": " (text response))) [];;
        logging_info "Retrying in 1 minute";;
        time_sleep 60;;
        post_until_created fuel' g title_content data
  end.

(** Lines 105 to 134: the dictionary [data]. *)
Definition request_data (g : Globals) (parent_page_id title_content
    main_content source_content : string) : page_data :=
  {| parent_page_id := parent_page_id;
     icon_emoji := icon g;
     properties_title := [title_content];
     children := map paragraph (content_blocks main_content)
                 ++ [source_paragraph source_content] |}.

(** [len(main_content)] raises on [None]. *)
Definition create_notion_page (fuel : nat) (g : Globals)
    (parent_page_id title_content : string) (main_content : option string)
    (source_content : string) : M unit :=
  match main_content with
  | None => raise Py.TypeError
  | Some main_content =>
      let data :=
        request_data g parent_page_id title_content main_content source_content in
      post_until_created fuel g title_content data
  end.

(** ** [parse_database] *)
Definition parse_database (database_cache : string) : M (list Item) :=
  logging_info "Parsing database";;
  do f <- get_fs;
  match f !! database_cache with
  | Some (Sqlite (Some data)) =>
      let items := map Item_init data in
      ret (map to_dict items)
  | Some _ =>
      logging_error "Unexpected error reading your KoboReader.sqlite file:"
                    [Py.DatabaseError];;
      ret []
  | None =>
      (* [sqlite3.connect] creates the file; the query then finds no table *)
      put_fs (<[database_cache := Sqlite None]> f);;
      logging_error "Unexpected error reading your KoboReader.sqlite file:"
                    [Py.DatabaseError];;
      ret []
  end.

(** ** [export_kobo_items] *)

(** The test of line 187. *)
Definition is_new (delta_date : option string) (date_created date_modified : string)
    : bool :=
  match delta_date with
  | None => true
  | Some delta => Py.gt date_created delta || Py.gt date_modified delta
  end.

(** Lines 190 to 193. *)
Definition bump (latest_date : option string) (date_created date_modified : string)
    : option string :=
  let latest_date :=
    match latest_date with
    | None => date_created
    | Some l => if Py.gt date_created l then date_created else l
    end in
  let latest_date :=
    if Py.gt date_modified latest_date then date_modified else latest_date in
  Some latest_date.

(** The body of the [for] loop, from the value of [latest_date] before the
    item to its value after. *)
Definition export_item (fuel : nat) (g : Globals) (delta_date : option string)
    (kobo_item : Item) (latest_date : option string) : M (option string) :=
  do record_type <- match type kobo_item with
                    | Some t => ret (Py.capitalize t)
                    | None => raise Py.AttributeError
                    end;
  let title := title kobo_item in
  do date_created <- lift (convert_date (datecreated kobo_item));
  do date_modified <- lift (convert_date (datemodified kobo_item));
  let main_content := text_ kobo_item in
  let author := author kobo_item in
  let title_content := Py.cat record_type (Py.cat ": " (Py.fmt title)) in
  let source_content :=
    Py.cat "Source: " (Py.cat (Py.fmt title) (Py.cat ", " (Py.fmt author))) in
  if is_new delta_date date_created date_modified then
    create_notion_page fuel g (parent_page g) title_content main_content
                       source_content;;
    ret (bump latest_date date_created date_modified)
  else ret latest_date.

Fixpoint export_loop (fuel : nat) (g : Globals) (delta_date : option string)
    (kobo_items : list Item) (latest_date : option string) : M (option string) :=
  match kobo_items with
  | [] => ret latest_date
  | kobo_item :: rest =>
      do latest_date <- export_item fuel g delta_date kobo_item latest_date;
      export_loop fuel g delta_date rest latest_date
  end.

Definition config_path : string := Py.path_join SCRIPT_DIR "config.yaml".

Definition set_delta_date (c : Config) (v : string) : Config :=
  {| kobo_database_path := kobo_database_path c;
     kobo_database_cache := kobo_database_cache c;
     notion_integration_token := notion_integration_token c;
     notion_parent_page := notion_parent_page c;
     notion_icon := notion_icon c;
     kobo2notion_delta_date := v |}.

(** Lines 195 to 198: [yaml.safe_dump] of the global [config]. *)
Definition persist (latest_date : option string) : M unit :=
  match latest_date with
  | Some l =>
      if Py.truthy l then
        do c <- get_config;
        let c := set_delta_date c l in
        put_config c;;
        do f <- get_fs;
        put_fs (<[config_path := Yaml c]> f)
      else ret tt
  | None => ret tt
  end.

Definition export_kobo_items (fuel : nat) (g : Globals) (database_cache : string)
    (delta_date : option string) : M unit :=
  let latest_date := None in
  do kobo_items <- parse_database database_cache;
  do latest_date <- export_loop fuel g delta_date kobo_items latest_date;
  persist latest_date.

(** ** The module body, lines 201 to 224 *)

(** Lines 209 to 211: the text handed to [convert_date]. *)
Definition configured_delta (c : Config) : string :=
  let delta_date := Py.strip (kobo2notion_delta_date c) in
  if String.eqb delta_date "" then NODELTA_DATE else delta_date.

(** Lines 206 to 208 and 215 to 219. *)
Definition globals_of (c : Config) : Globals :=
  let integration_token := notion_integration_token c in
  {| parent_page := notion_parent_page c;
     icon := notion_icon c;
     HEADERS := [("Authorization", Py.cat "Bearer " integration_token);
                 ("Content-Type", "application/json");
                 ("Notion-Version", "2022-06-28")] |}.

Definition main (fuel : nat) : M unit :=
  do f <- get_fs;
  do c <- match f !! config_path with
          | Some (Yaml c) => ret c
          | Some _ => raise Py.KeyError
          | None => raise Py.OSError
          end;
  put_config c;;
  let database_path := Py.path_join SCRIPT_DIR (kobo_database_path c) in
  let database_cache := Py.path_join SCRIPT_DIR (kobo_database_cache c) in
  do delta_date <- lift (convert_date (configured_delta c));
  let g := globals_of c in
  copy_database database_path database_cache;;
  export_kobo_items fuel g database_cache (Some delta_date);;
  logging_info "Process finished".

End Script.

(** ** [ColorFormatter] *)

Module ColorFormatter.

(** The escape character, written [\033] in the script. *)
Definition ESC : ascii := "027"%char.

Definition GREEN : string := String ESC "[92m".
Definition RED : string := String ESC "[91m".
Definition RESET : string := String ESC "[0m".

(** The numbers of the levels of [logging]. *)
Definition logging_DEBUG : nat := 10.
Definition logging_INFO : nat := 20.
Definition logging_WARNING : nat := 30.
Definition logging_ERROR : nat := 40.

(** The dictionary [FORMATS]. *)
Definition FORMATS : gmap nat string :=
  <[logging_INFO := GREEN]> (<[logging_ERROR := RED]> ∅).

(** What [format] reads of a log record. *)
Record LogRecord := { levelno : nat; message : string }.

(** [format(self, record)]; [super_format] is [logging.Formatter.format],
    which belongs to the library. *)
Definition format (super_format : LogRecord -> string) (record : LogRecord)
    : string :=
  let log_color := default "" (FORMATS !! levelno record) in
  let reset_color := if Py.truthy log_color then RESET else "" in
  let formatted_message := super_format record in
  Py.cat log_color (Py.cat formatted_message reset_color).

End ColorFormatter.

(** ** A small datetime library, to run the script on examples

    It reads only fixed-width text: [YYYY-MM-DD?HH:MM:SS] for
    [fromisoformat] (any one character between date and time) and
    [YYYY-MM-DDTHH:MM:SSZ] for [strptime] with the format of the script. *)

Module FixedWidth.

Definition digit_value (c : ascii) : option N :=
  if is_digit c then Some (N_of_ascii c - 48)%N else None.

Fixpoint read_number (width : nat) (acc : N) (s : string) : option (N * string) :=
  match width, s with
  | 0, _ => Some (acc, s)
  | S w, String c s' =>
      v ← digit_value c; read_number w (acc * 10 + v)%N s'
  | S _, EmptyString => None
  end.

(** [sep = None] accepts any character. *)
Definition read_char (sep : option ascii) (s : string) : option string :=
  match s with
  | String c s' =>
      match sep with
      | Some x => if Ascii.eqb x c then Some s' else None
      | None => Some s'
      end
  | EmptyString => None
  end.

Definition parse (sep : option ascii) (suffix : string) (s : string)
    : option datetime :=
  '(y, s) ← read_number 4 0 s;
  s ← read_char (Some "-"%char) s;
  '(m, s) ← read_number 2 0 s;
  s ← read_char (Some "-"%char) s;
  '(d, s) ← read_number 2 0 s;
  s ← read_char sep s;
  '(h, s) ← read_number 2 0 s;
  s ← read_char (Some ":"%char) s;
  '(mi, s) ← read_number 2 0 s;
  s ← read_char (Some ":"%char) s;
  '(sec, s) ← read_number 2 0 s;
  let dt := mk_datetime y m d h mi sec in
  if String.eqb s suffix && valid_datetime dt then Some dt else None.

#[export] Instance lib : DatetimeLib := {|
  fromisoformat s := parse None "" s;
  strptime s f :=
    if String.eqb f "%Y-%m-%dT%H:%M:%SZ" then parse (Some "T"%char) "Z" s else None
|}.

End FixedWidth.

(** ** A small world, to run the script on examples *)

Module Example.

Definition ok : response := {| status_code := 200; text := "" |}.
Definition busy : response := {| status_code := 429; text := "rate limited" |}.

(** A service that answers 429 twice and 200 from then on. *)
Definition flaky (i : nat) : response := if i <? 2 then busy else ok.
(** A service that always answers 200. *)
Definition steady (i : nat) : response := ok.

Definition g : Globals :=
  {| parent_page := "page-1"; icon := "B";
     HEADERS := [("Authorization", "Bearer secret");
                 ("Content-Type", "application/json");
                 ("Notion-Version", "2022-06-28")] |}.

Definition cfg (delta : string) : Config :=
  {| kobo_database_path := "/mnt/kobo/KoboReader.sqlite";
     kobo_database_cache := "cache/KoboReader.sqlite";
     notion_integration_token := "secret";
     notion_parent_page := "page-1";
     notion_icon := "B";
     kobo2notion_delta_date := delta |}.

Definition row (txt : string) (created modified : option string) : Row :=
  {| VolumeID := Some "vol"; Type_ := Some "highlight"; Text := Some txt;
     Annotation := None; ExtraAnnotationData := None;
     DateCreated := created; DateModified := modified;
     BookTitle := Some "Book"; Title := Some "Chapter";
     Attribution := Some "Author" |}.

Definition rows : list Row :=
  [row "first" (Some "2023-01-01T00:00:00Z") (Some "2023-01-01T00:00:00Z");
   row "second" (Some "2023-06-01T00:00:00Z") None;
   row "undated" None None].

(** The script lives in [/app]; the e-reader is mounted or not. *)
Definition world (delta : string) (mounted : bool) : state :=
  {| fs := if mounted
           then <["/mnt/kobo/KoboReader.sqlite" := Sqlite (Some rows)]>
                  {["/app/config.yaml" := Yaml (cfg delta)]}
           else {["/app/config.yaml" := Yaml (cfg delta)]};
     config := None; trace := []; posts := 0 |}.

(** The state once the configuration is loaded and the database copied. *)
Definition ready (delta : string) (database : option (list Row)) : state :=
  {| fs := <["/app/cache/KoboReader.sqlite" := Sqlite database]>
             {["/app/config.yaml" := Yaml (cfg delta)]};
     config := Some (cfg delta); trace := []; posts := 0 |}.

Fixpoint repeat_char (c : ascii) (n : nat) : string :=
  match n with 0 => EmptyString | S n' => String c (repeat_char c n') end.

End Example.

(** ** More of the small world *)

Module Scenario.


(** A configuration whose cache is the e-reader's own file. *)
Definition cfg_same_path : Config :=
  {| kobo_database_path := "/mnt/kobo/KoboReader.sqlite";
     kobo_database_cache := "/mnt/kobo/KoboReader.sqlite";
     notion_integration_token := "secret";
     notion_parent_page := "page-1";
     notion_icon := "B";
     kobo2notion_delta_date := "" |}.

(** A database with one row, dated in the year 999. *)
Definition rows_year_999 : list Row :=
  [Example.row "old" (Some "0999-12-31 23:59:59") None].

Definition world_year_999 : state :=
  {| fs := <["/mnt/kobo/KoboReader.sqlite" := Sqlite (Some rows_year_999)]>
             {["/app/config.yaml" := Yaml (Example.cfg "")]};
     config := None; trace := []; posts := 0 |}.

End Scenario.

(** ** Notions used to state the properties *)

(** The larger of two texts, as the two tests of the loop compute it. *)
Definition str_max (a b : string) : string := if Py.gt b a then b else a.

(** Comparing field after field. *)
Definition lex (c1 c2 : comparison) : comparison :=
  match c1 with Eq => c2 | _ => c1 end.

Definition compare_fields (a b : datetime) : comparison :=
  lex (year a ?= year b)%N (lex (month a ?= month b)%N (lex (day a ?= day b)%N
  (lex (hour a ?= hour b)%N (lex (minute a ?= minute b)%N
  (second a ?= second b)%N)))).

Definition leap_day (y : N) : N := if is_leap y then 1%N else 0%N.

(** What one failed attempt and the successful attempt add to the trace. *)
Definition error_line (r : response) : string :=
  Py.cat (Py.str_of_nat (status_code r)) (Py.cat ": " (text r)).

Definition created_line (title_content : string) : string :=
  Py.cat "Created " (Py.cat dquote (Py.cat title_content dquote)).

Definition failed_attempt (g : Globals) (data : page_data) (r : response)
    : list event :=
  [Post PAGES_URL (HEADERS g) data r;
   Log ERROR (error_line r) [];
   Log INFO "Retrying in 1 minute" [];
   Sleep 60].

Definition successful_attempt (g : Globals) (title_content : string)
    (data : page_data) (r : response) : list event :=
  [Post PAGES_URL (HEADERS g) data r;
   Log INFO (created_line title_content) []].

Definition is_error_line (e : event) : bool :=
  match e with Log ERROR _ _ => true | _ => false end.
Definition is_sleep (e : event) : bool :=
  match e with Sleep _ => true | _ => false end.
Definition is_created_line (title_content : string) (e : event) : bool :=
  match e with
  | Log INFO msg [] => String.eqb msg (created_line title_content)
  | _ => false
  end.
Definition count (p : event -> bool) (tr : list event) : nat :=
  length (List.filter p tr).

(** The bodies of the requests in a trace, and the bodies that were accepted
    (answered with status 200). *)
Definition sent (tr : list event) : list page_data :=
  omap (fun e => match e with Post _ _ d _ => Some d | _ => None end) tr.
Definition created (tr : list event) : list page_data :=
  omap (fun e => match e with
                 | Post _ _ d r => if status_code r =? 200 then Some d else None
                 | _ => None
                 end) tr.

(** The part of the trace written since [st]. *)
Definition since (st st' : state) : list event :=
  drop (length (trace st)) (trace st').

(** [n] is the first index from [k] on at which the service answers 200. *)
Definition first_ok (remote : nat -> response) (k n : nat) : Prop :=
  (forall i, i < n -> status_code (remote (k + i)) <> 200) /\
  status_code (remote (k + n)) = 200.

(** The text without its first [n] characters. *)
Fixpoint sdrop (n : nat) (s : string) : string :=
  match n, s with
  | 0, _ => s
  | S n', String _ s' => sdrop n' s'
  | S _, EmptyString => EmptyString
  end.

(** The state after [n] failed attempts from [st], and after the successful
    one. *)
Definition after_failures (remote : nat -> response) (g : Globals)
    (data : page_data) (n : nat) (st : state) : state :=
  {| fs := fs st; config := config st;
     trace := trace st ++
              flat_map (fun i => failed_attempt g data (remote (posts st + i)))
                       (seq 0 n);
     posts := posts st + n |}.

Definition after_success (remote : nat -> response) (g : Globals)
    (title_content : string) (data : page_data) (st : state) : state :=
  {| fs := fs st; config := config st;
     trace := trace st ++ successful_attempt g title_content data (remote (posts st));
     posts := S (posts st) |}.

(** ** What the export loop does with one item *)

Section Items.

Context `{DatetimeLib}.

(** The two normalised dates of an item, when both normalise. *)
Definition normalized (it : Item) : option (string * string) :=
  match convert_date (datecreated it), convert_date (datemodified it) with
  | Py.Ok c, Py.Ok m => Some (c, m)
  | _, _ => None
  end.

(** The item passes the test of line 187. *)
Definition publishable (delta_date : option string) (it : Item) : bool :=
  match normalized it with
  | Some (c, m) => is_new delta_date c m
  | None => false
  end.

(** The request body the loop builds for an item. *)
Definition page_of (g : Globals) (it : Item) : option page_data :=
  match type it, text_ it with
  | Some t, Some txt =>
      Some (request_data g (parent_page g)
              (Py.cat (Py.capitalize t) (Py.cat ": " (Py.fmt (title it))))
              txt
              (Py.cat "Source: " (Py.cat (Py.fmt (title it))
                                         (Py.cat ", " (Py.fmt (author it))))))
  | _, _ => None
  end.

(** The loop body meets no exception on the item: the type is a text, both
    dates normalise and, if the item is to be published, it has a text. *)
Definition runs_clean (delta_date : option string) (it : Item) : Prop :=
  is_Some (type it) /\ is_Some (normalized it) /\
  (publishable delta_date it = true -> is_Some (text_ it)).

(** [latest_date] after the given published items. *)
Definition newest (latest_date : option string) (its : list Item)
    : option string :=
  fold_left (fun l it => match normalized it with
                         | Some (c, m) => bump l c m
                         | None => l
                         end) its latest_date.

(** The largest of [w] and of the dates of the given items. *)
Definition max_dates (w : string) (its : list Item) : string :=
  fold_left (fun acc it => match normalized it with
                           | Some (c, m) => str_max (str_max acc c) m
                           | None => acc
                           end) its w.

End Items.

(** The service ends up accepting whatever it is sent. *)
Definition responsive (remote : nat -> response) : Prop :=
  forall k, exists n, first_ok remote k n.

(** [st'] is [st] with [tr] added to the trace, files and [config] untouched. *)
Definition grows (st st' : state) (tr : list event) : Prop :=
  fs st' = fs st /\ config st' = config st /\ trace st' = trace st ++ tr.

(** What a terminal shows of a text: the escape sequences, from the escape
    character to the next [m], are read as commands and not displayed.
    [esc] tells whether the reader is inside such a sequence. *)
Fixpoint shown (esc : bool) (s : string) : string :=
  match s with
  | EmptyString => EmptyString
  | String c s' =>
      if esc then shown (negb (Ascii.eqb c "m")) s'
      else if Ascii.eqb c ColorFormatter.ESC then shown true s'
      else String c (shown false s')
  end.

(** No escape character in the text. *)
Fixpoint plain (s : string) : bool :=
  match s with
  | EmptyString => true
  | String c s' => negb (Ascii.eqb c ColorFormatter.ESC) && plain s'
  end.

(** The text is not empty and its last character is no white space. *)
Fixpoint ends_nonspace (s : string) : bool :=
  match s with
  | EmptyString => false
  | String c EmptyString => negb (Py.is_space c)
  | String _ s' => ends_nonspace s'
  end.

(** The seconds slept in a trace. *)
Definition slept (tr : list event) : nat :=
  fold_right (fun e acc => match e with Sleep secs => secs + acc | _ => acc end) 0 tr.

(** * Properties *)

(** ** The order on [str] *)

Section StrOrder.

Lemma ascii_compare_refl (c : ascii) : Ascii.compare c c = Eq.
Proof. unfold Ascii.compare. apply N.compare_refl. Qed.

Lemma ascii_compare_eq (a b : ascii) : Ascii.compare a b = Eq <-> a = b.
Proof.
  split; [apply Ascii.compare_eq_iff | intros ->; apply ascii_compare_refl].
Qed.

Lemma ascii_compare_lt_trans (a b c : ascii) :
  Ascii.compare a b = Lt -> Ascii.compare b c = Lt -> Ascii.compare a c = Lt.
Proof.
  unfold Ascii.compare. rewrite !N.compare_lt_iff. lia.
Qed.

Lemma compare_refl (s : string) : String.compare s s = Eq.
Proof.
  induction s as [|c s IH]; simpl; [reflexivity|].
  now rewrite ascii_compare_refl.
Qed.

Lemma compare_eq (s1 s2 : string) : String.compare s1 s2 = Eq <-> s1 = s2.
Proof.
  split; [apply String.compare_eq_iff | intros ->; apply compare_refl].
Qed.

Lemma compare_lt_trans (s1 s2 s3 : string) :
  String.compare s1 s2 = Lt -> String.compare s2 s3 = Lt ->
  String.compare s1 s3 = Lt.
Proof.
  revert s2 s3. induction s1 as [|a s1 IH]; intros [|b s2] [|c s3]; simpl;
    try discriminate; try reflexivity.
  destruct (Ascii.compare a b) eqn:Eab; try discriminate;
    destruct (Ascii.compare b c) eqn:Ebc; try discriminate; intros H12 H23.
  - apply ascii_compare_eq in Eab, Ebc. subst.
    rewrite ascii_compare_refl. eauto.
  - apply ascii_compare_eq in Eab. subst. now rewrite Ebc.
  - apply ascii_compare_eq in Ebc. subst. now rewrite Eab.
  - now rewrite (ascii_compare_lt_trans _ _ _ Eab Ebc).
Qed.

Lemma compare_gt_lt (s1 s2 : string) :
  String.compare s1 s2 = Gt <-> String.compare s2 s1 = Lt.
Proof.
  rewrite (String.compare_antisym s2 s1).
  destruct (String.compare s1 s2); simpl; split; congruence.
Qed.

Lemma gt_spec (s1 s2 : string) :
  Py.gt s1 s2 = true <-> String.compare s2 s1 = Lt.
Proof.
  unfold Py.gt, String.ltb. destruct (String.compare s2 s1); split; congruence.
Qed.

Lemma gt_irrefl (s : string) : Py.gt s s = false.
Proof. unfold Py.gt, String.ltb. now rewrite compare_refl. Qed.

Lemma gt_trans (s1 s2 s3 : string) :
  Py.gt s1 s2 = true -> Py.gt s2 s3 = true -> Py.gt s1 s3 = true.
Proof.
  rewrite !gt_spec. intros H12 H23. eapply compare_lt_trans; eassumption.
Qed.

Lemma gt_false (s1 s2 : string) :
  Py.gt s1 s2 = false <-> s1 = s2 \/ Py.gt s2 s1 = true.
Proof.
  rewrite gt_spec. unfold Py.gt, String.ltb.
  destruct (String.compare s2 s1) eqn:E.
  - apply compare_eq in E. subst. split; [now left | reflexivity].
  - split; [discriminate|]. intros [->|Hlt].
    + now rewrite compare_refl in E.
    + apply compare_gt_lt in Hlt. congruence.
  - split; [intros _; right; now apply compare_gt_lt | reflexivity].
Qed.

(** Two texts that start with blocks of the same length are compared block
    first. *)
Lemma compare_app (a a' b b' : string) :
  String.length a = String.length a' ->
  String.compare (Py.cat a b) (Py.cat a' b') =
  match String.compare a a' with Eq => String.compare b b' | c => c end.
Proof.
  revert a'.
  induction a as [|c a IH]; intros [|c' a']; simpl; try discriminate.
  - reflexivity.
  - intros [= Hlen]. destruct (Ascii.compare c c'); auto.
Qed.

Lemma length_cat (a b : string) :
  String.length (Py.cat a b) = String.length a + String.length b.
Proof. induction a; simpl; auto. Qed.

End StrOrder.

(** ** The calendar *)

Ltac divmod := zify; Z.to_euclidean_division_equations; lia.

Section CalendarFacts.
Local Open Scope N_scope.

Lemma div_succ_4 p : (p + 1) / 4 = p / 4 + (if (p + 1) mod 4 =? 0 then 1 else 0).
Proof. destruct (N.eqb_spec ((p + 1) mod 4) 0); divmod. Qed.

Lemma div_succ_100 p :
  (p + 1) / 100 = p / 100 + (if (p + 1) mod 100 =? 0 then 1 else 0).
Proof. destruct (N.eqb_spec ((p + 1) mod 100) 0); divmod. Qed.

Lemma div_succ_400 p :
  (p + 1) / 400 = p / 400 + (if (p + 1) mod 400 =? 0 then 1 else 0).
Proof. destruct (N.eqb_spec ((p + 1) mod 400) 0); divmod. Qed.

Lemma days_before_year_succ (y : N) :
  1 <= y -> days_before_year (y + 1) = days_before_year y + 365 + leap_day y.
Proof.
  intros Hy. unfold days_before_year, leap_day, is_leap.
  replace (y + 1 - 1) with y by lia.
  assert (Hp : y = (y - 1) + 1) by lia.
  set (p := y - 1) in *. clearbody p. subst y.
  rewrite div_succ_4, div_succ_100, div_succ_400.
  assert (H100 : p / 100 <= p / 4) by divmod.
  assert (H4 : (p + 1) mod 100 = 0 -> (p + 1) mod 4 = 0) by divmod.
  assert (H400 : (p + 1) mod 400 = 0 -> (p + 1) mod 100 = 0) by divmod.
  destruct (N.eqb_spec ((p + 1) mod 4) 0);
    destruct (N.eqb_spec ((p + 1) mod 100) 0);
    destruct (N.eqb_spec ((p + 1) mod 400) 0); simpl; lia.
Qed.

Lemma days_before_year_mono (y1 y2 : N) :
  y1 <= y2 -> days_before_year y1 <= days_before_year y2.
Proof. unfold days_before_year. intros. divmod. Qed.

Lemma year_ends_before_next (y1 y2 : N) :
  1 <= y1 -> y1 < y2 ->
  days_before_year y1 + 365 + leap_day y1 <= days_before_year y2.
Proof.
  intros H1 Hlt. rewrite <- days_before_year_succ by assumption.
  apply days_before_year_mono. lia.
Qed.

Lemma month_cases (m : N) :
  1 <= m <= 12 ->
  m = 1 \/ m = 2 \/ m = 3 \/ m = 4 \/ m = 5 \/ m = 6 \/
  m = 7 \/ m = 8 \/ m = 9 \/ m = 10 \/ m = 11 \/ m = 12.
Proof. lia. Qed.

Ltac month_split H :=
  apply month_cases in H;
  destruct H as [->|[->|[->|[->|[->|[->|[->|[->|[->|[->|[->| ->]]]]]]]]]]].

Lemma month_ends_in_year (y m : N) :
  1 <= m <= 12 ->
  days_before_month y m + days_in_month y m <= 365 + leap_day y.
Proof.
  intros Hm. unfold days_before_month, leap_day. month_split Hm; simpl;
    destruct (is_leap y); simpl; lia.
Qed.

Lemma month_ends_before_next (y m1 m2 : N) :
  1 <= m1 -> m1 < m2 -> m2 <= 12 ->
  days_before_month y m1 + days_in_month y m1 <= days_before_month y m2.
Proof.
  intros H1 Hlt H2.
  assert (Hm1 : 1 <= m1 <= 12) by lia. assert (Hm2 : 1 <= m2 <= 12) by lia.
  unfold days_before_month.
  month_split Hm1; month_split Hm2; try lia; simpl;
    destruct (is_leap y); simpl; lia.
Qed.

Lemma valid_datetime_spec (d : datetime) :
  valid_datetime d = true <->
  (1 <= year d <= 9999) /\ (1 <= month d <= 12) /\
  (1 <= day d <= days_in_month (year d) (month d)) /\
  hour d < 24 /\ minute d < 60 /\ second d < 60.
Proof.
  unfold valid_datetime.
  rewrite !andb_true_iff, !N.leb_le, !N.ltb_lt. tauto.
Qed.

End CalendarFacts.

(** ** Field order, time order and text order of dates *)

Section DateOrder.
Local Open Scope N_scope.

Lemma lex_opp c1 c2 : CompOpp (lex c1 c2) = lex (CompOpp c1) (CompOpp c2).
Proof. now destruct c1. Qed.

Lemma compare_fields_antisym (a b : datetime) :
  compare_fields a b = CompOpp (compare_fields b a).
Proof.
  unfold compare_fields. rewrite !lex_opp, <- !N.compare_antisym. reflexivity.
Qed.

Lemma compare_fields_eq (a b : datetime) : compare_fields a b = Eq -> a = b.
Proof.
  destruct a, b. unfold compare_fields, lex. simpl.
  repeat match goal with
         | |- context [?x ?= ?y] => destruct (N.compare_spec x y); try discriminate
         end.
  intros _. congruence.
Qed.

Lemma instant_lt_of_fields (a b : datetime) :
  valid_datetime a = true -> valid_datetime b = true ->
  compare_fields a b = Lt -> instant a < instant b.
Proof.
  rewrite !valid_datetime_spec.
  intros (Hya & Hma & Hda & Hha & Hmia & Hsa) (Hyb & Hmb & Hdb & Hhb & Hmib & Hsb).
  unfold compare_fields, lex, instant, toordinal.
  pose proof (month_ends_in_year (year a) (month a) Hma) as Hend.
  destruct (N.compare_spec (year a) (year b)) as [Ey|Hy|Hy]; try discriminate.
  2:{ intros _.
      pose proof (year_ends_before_next (year a) (year b) (proj1 Hya) Hy). lia. }
  rewrite Ey in *.
  destruct (N.compare_spec (month a) (month b)) as [Em|Hm|Hm]; try discriminate.
  2:{ intros _.
      pose proof (month_ends_before_next (year b) (month a) (month b)
                    (proj1 Hma) Hm (proj2 Hmb)). lia. }
  rewrite Em in *.
  destruct (N.compare_spec (day a) (day b)); try discriminate; [|lia].
  destruct (N.compare_spec (hour a) (hour b)); try discriminate; [|lia].
  destruct (N.compare_spec (minute a) (minute b)); try discriminate; [|lia].
  destruct (N.compare_spec (second a) (second b)); try discriminate. lia.
Qed.

(** The time order of two dates is the order of their fields. *)
Lemma compare_instant (a b : datetime) :
  valid_datetime a = true -> valid_datetime b = true ->
  (instant a ?= instant b) = compare_fields a b.
Proof.
  intros Ha Hb. destruct (compare_fields a b) eqn:E.
  - apply compare_fields_eq in E. subst. apply N.compare_refl.
  - apply N.compare_lt_iff. now apply instant_lt_of_fields.
  - apply N.compare_gt_iff. apply instant_lt_of_fields; try assumption.
    rewrite compare_fields_antisym, E. reflexivity.
Qed.

Lemma N_of_digit (n : N) : N_of_ascii (digit n) = 48 + n mod 10.
Proof.
  unfold digit. apply N_ascii_embedding.
  assert (n mod 10 < 10) by (apply N.mod_lt; lia). lia.
Qed.

Lemma compare_digit (a b : N) :
  Ascii.compare (digit a) (digit b) = (a mod 10 ?= b mod 10).
Proof.
  unfold Ascii.compare. rewrite !N_of_digit.
  destruct (N.compare_spec (a mod 10) (b mod 10)).
  - rewrite H. apply N.compare_refl.
  - apply N.compare_lt_iff. lia.
  - apply N.compare_gt_iff. lia.
Qed.

Lemma lex_div_10 (a b : N) :
  a < 100 -> b < 100 ->
  lex ((a / 10) mod 10 ?= (b / 10) mod 10) (a mod 10 ?= b mod 10) = (a ?= b).
Proof.
  intros Ha Hb. unfold lex.
  destruct (N.compare_spec ((a / 10) mod 10) ((b / 10) mod 10));
    destruct (N.compare_spec (a mod 10) (b mod 10));
    destruct (N.compare_spec a b); try reflexivity; exfalso; divmod.
Qed.

Lemma lex_div_100 (a b : N) :
  lex (a / 100 ?= b / 100) (a mod 100 ?= b mod 100) = (a ?= b).
Proof.
  unfold lex.
  destruct (N.compare_spec (a / 100) (b / 100));
    destruct (N.compare_spec (a mod 100) (b mod 100));
    destruct (N.compare_spec a b); try reflexivity; exfalso; divmod.
Qed.

Lemma compare_pad2 (a b : N) (r r' : string) :
  a < 100 -> b < 100 ->
  String.compare (Py.cat (pad2 a) r) (Py.cat (pad2 b) r') =
  lex (a ?= b) (String.compare r r').
Proof.
  intros Ha Hb. unfold pad2. simpl.
  rewrite !compare_digit, <- (lex_div_10 a b Ha Hb). unfold lex.
  destruct ((a / 10) mod 10 ?= (b / 10) mod 10); try reflexivity.
  destruct (a mod 10 ?= b mod 10); reflexivity.
Qed.

Lemma cat_assoc (a b c : string) : Py.cat (Py.cat a b) c = Py.cat a (Py.cat b c).
Proof.
  induction a as [|x a IH]; simpl; [reflexivity | f_equal; exact IH].
Qed.

Lemma compare_pad4 (a b : N) (r r' : string) :
  a < 10000 -> b < 10000 ->
  String.compare (Py.cat (pad4 a) r) (Py.cat (pad4 b) r') =
  lex (a ?= b) (String.compare r r').
Proof.
  intros Ha Hb. unfold pad4. rewrite !cat_assoc.
  rewrite compare_pad2 by divmod. rewrite compare_pad2 by divmod.
  rewrite <- (lex_div_100 a b). unfold lex.
  destruct (a / 100 ?= b / 100); reflexivity.
Qed.

Lemma compare_sep (c : ascii) (r r' : string) :
  String.compare (Py.cat (String c "") r) (Py.cat (String c "") r') =
  String.compare r r'.
Proof. simpl. now rewrite ascii_compare_refl. Qed.

Lemma compare_pad2_end (a b : N) :
  a < 100 -> b < 100 -> String.compare (pad2 a) (pad2 b) = (a ?= b).
Proof.
  intros Ha Hb.
  replace (pad2 a) with (Py.cat (pad2 a) "") by reflexivity.
  replace (pad2 b) with (Py.cat (pad2 b) "") by reflexivity.
  rewrite compare_pad2 by assumption. simpl. now destruct (a ?= b).
Qed.

(** The text order of two canonical dates is the order of their fields. *)
Lemma year_text_pad4 (y : N) : 1000 <= y -> year_text y = pad4 y.
Proof.
  intros Hy. unfold year_text.
  rewrite !(proj2 (N.ltb_ge _ _)) by lia. reflexivity.
Qed.

(** The text order of two dates written with four-digit years is the order
    of their fields. *)
Lemma compare_strftime (a b : datetime) :
  valid_datetime a = true -> valid_datetime b = true ->
  1000 <= year a -> 1000 <= year b ->
  String.compare (strftime a) (strftime b) = compare_fields a b.
Proof.
  rewrite !valid_datetime_spec.
  intros (Hya & Hma & Hda & Hha & Hmia & Hsa) (Hyb & Hmb & Hdb & Hhb & Hmib & Hsb)
         Hka Hkb.
  assert (day a <= 31 /\ day b <= 31) as [Hda' Hdb'].
  { split.
    - destruct Hda as [_ Hda]. revert Hda. unfold days_in_month.
      apply month_cases in Hma.
      destruct Hma as [->|[->|[->|[->|[->|[->|[->|[->|[->|[->|[->| ->]]]]]]]]]]];
        try destruct (is_leap (year a)); lia.
    - destruct Hdb as [_ Hdb]. revert Hdb. unfold days_in_month.
      apply month_cases in Hmb.
      destruct Hmb as [->|[->|[->|[->|[->|[->|[->|[->|[->|[->|[->| ->]]]]]]]]]]];
        try destruct (is_leap (year b)); lia. }
  unfold strftime, compare_fields. rewrite !year_text_pad4 by assumption.
  rewrite compare_pad4 by lia. rewrite compare_sep.
  rewrite compare_pad2 by lia. rewrite compare_sep.
  rewrite compare_pad2 by lia. rewrite compare_sep.
  rewrite compare_pad2 by lia. rewrite compare_sep.
  rewrite compare_pad2 by lia. rewrite compare_sep.
  rewrite compare_pad2_end by lia. reflexivity.
Qed.

End DateOrder.

(** ** The canonical text of a date *)

Section Canonical.
Local Open Scope N_scope.

Lemma is_digit_digit (n : N) : is_digit (digit n) = true.
Proof.
  unfold is_digit. rewrite N_of_digit.
  assert (n mod 10 < 10) by (apply N.mod_lt; lia).
  apply andb_true_iff. split; apply N.leb_le; divmod.
Qed.

Lemma has_shape_digit (p s : string) (n : N) :
  has_shape (String "9" p) (String (digit n) s) = has_shape p s.
Proof. simpl. now rewrite is_digit_digit. Qed.

Lemma has_shape_sep (c : ascii) (p s : string) :
  c <> "9"%char -> has_shape (String c p) (String c s) = has_shape p s.
Proof.
  intros Hc. simpl. destruct (Ascii.eqb_spec c "9"); [contradiction|].
  now rewrite Ascii.eqb_refl.
Qed.

Lemma has_shape_no_digit (c : ascii) (p s : string) :
  is_digit c = false -> has_shape (String "9" p) (String c s) = false.
Proof. intros Hc. simpl. now rewrite Hc. Qed.

(** For a year of four digits [strftime] writes nineteen characters of the
    shape [YYYY-MM-DD HH:MM:SS]. *)
Lemma strftime_canonical (d : datetime) :
  1000 <= year d -> is_canonical (strftime d) = true.
Proof.
  intros Hy. unfold is_canonical, strftime. rewrite year_text_pad4 by assumption.
  unfold pad4, pad2. cbn [Py.cat].
  repeat (rewrite has_shape_digit || rewrite has_shape_sep by discriminate).
  reflexivity.
Qed.

(** For a year below 1000 it writes fewer, and the shape is missed. *)
Lemma strftime_short (d : datetime) :
  year d < 1000 -> is_canonical (strftime d) = false.
Proof.
  intros Hy. unfold is_canonical, strftime, year_text.
  destruct (year d <? 10) eqn:H1; [|destruct (year d <? 100) eqn:H2;
    [|destruct (year d <? 1000) eqn:H3; [|apply N.ltb_ge in H3; lia]]];
    unfold pad2; cbn [Py.cat];
    repeat rewrite has_shape_digit; now apply has_shape_no_digit.
Qed.

(** The shape tells the years of four digits from the others. *)
Lemma canonical_year (d : datetime) :
  is_canonical (strftime d) = true -> 1000 <= year d.
Proof.
  intros Hc. destruct (N.lt_ge_cases (year d) 1000) as [Hlt | Hge]; [|assumption].
  rewrite (strftime_short d Hlt) in Hc. discriminate.
Qed.

Lemma strftime_truthy (d : datetime) : Py.truthy (strftime d) = true.
Proof.
  unfold strftime, year_text, pad4, pad2.
  destruct (year d <? 10); [reflexivity|].
  destruct (year d <? 100); [reflexivity|].
  destruct (year d <? 1000); reflexivity.
Qed.

End Canonical.

(** ** The fixed-width library meets the interface *)

Module FixedWidthFacts.
Import FixedWidth.
Local Open Scope N_scope.

Lemma digit_value_digit (n : N) : digit_value (digit n) = Some (n mod 10).
Proof.
  unfold digit_value. rewrite is_digit_digit, N_of_digit. f_equal. divmod.
Qed.

Lemma read_pad2 (n acc : N) (r : string) :
  n < 100 -> read_number 2 acc (Py.cat (pad2 n) r) = Some (acc * 100 + n, r).
Proof.
  intros Hn. unfold pad2. simpl. rewrite !digit_value_digit. simpl.
  do 2 f_equal. divmod.
Qed.

Lemma read_pad4 (n : N) (r : string) :
  n < 10000 -> read_number 4 0 (Py.cat (pad4 n) r) = Some (n, r).
Proof.
  intros Hn. unfold pad4, pad2. simpl. rewrite !digit_value_digit. simpl.
  do 2 f_equal. divmod.
Qed.

Lemma parse_valid sep suffix s d :
  parse sep suffix s = Some d -> valid_datetime d = true.
Proof.
  unfold parse. intros Hp.
  repeat (simplify_option_eq || case_match); try discriminate.
  match goal with H : _ && _ = true |- _ => apply andb_true_iff in H as [_ H] end.
  assumption.
Qed.

#[local] Opaque pad2 pad4 read_number valid_datetime.

Lemma parse_strftime sep (d : datetime) :
  (sep = None \/ sep = Some " "%char) ->
  valid_datetime d = true -> 1000 <= year d -> parse sep "" (strftime d) = Some d.
Proof.
  intros Hsep Hv Hk. pose proof Hv as Hv'. apply valid_datetime_spec in Hv'.
  destruct Hv' as (Hy & Hm & Hd & Hh & Hmi & Hs).
  assert (day d <= 31).
  { destruct Hd as [_ Hd]. revert Hd. unfold days_in_month.
    apply month_cases in Hm.
    destruct Hm as [->|[->|[->|[->|[->|[->|[->|[->|[->|[->|[->| ->]]]]]]]]]]];
      try destruct (is_leap (year d)); lia. }
  unfold parse, strftime. rewrite year_text_pad4 by assumption.
  rewrite read_pad4 by lia. simpl.
  rewrite read_pad2 by lia. simpl.
  rewrite read_pad2 by lia.
  destruct Hsep as [-> | ->]; simpl.
  all: rewrite read_pad2 by lia; simpl.
  all: rewrite read_pad2 by lia; simpl.
  all: replace (pad2 (second d)) with (Py.cat (pad2 (second d)) "")
         by (clear; induction (pad2 (second d)); simpl; congruence).
  all: rewrite read_pad2 by lia; simpl.
  all: rewrite !N.mul_0_l, !N.add_0_l.
  all: destruct d; simpl in *; rewrite Hv; reflexivity.
Qed.

#[export] Instance lib_spec : DatetimeLibSpec lib.
Proof.
  split.
  - intros s d. apply parse_valid.
  - intros s f d. simpl. destruct (String.eqb f _); [apply parse_valid | discriminate].
  - intros d Hv Hk. apply N.leb_le in Hk. apply parse_strftime; auto.
Qed.

End FixedWidthFacts.

(** ** The date normaliser *)

Section ConvertDate.

Context `{L : DatetimeLib}.

Lemma convert_date_ok (date_str out : string) :
  convert_date date_str = Py.Ok out ->
  exists d, out = strftime d /\
    (fromisoformat date_str = Some d \/
     (fromisoformat date_str = None /\
      strptime date_str "%Y-%m-%dT%H:%M:%SZ" = Some d)).
Proof.
  unfold convert_date.
  destruct (fromisoformat date_str) as [d|] eqn:Hiso.
  - intros [= <-]. eauto.
  - destruct (strptime date_str _) as [d|] eqn:Hz; [|discriminate].
    intros [= <-]. eauto.
Qed.

Lemma convert_date_valid `{!DatetimeLibSpec L} (date_str out : string) :
  convert_date date_str = Py.Ok out ->
  exists d, valid_datetime d = true /\ out = strftime d.
Proof.
  intros Hc. apply convert_date_ok in Hc as (d & -> & [Hd | [_ Hd]]).
  - exists d. split; [eapply fromisoformat_valid; eassumption | reflexivity].
  - exists d. split; [eapply strptime_valid; eassumption | reflexivity].
Qed.

Lemma convert_date_truthy (date_str out : string) :
  convert_date date_str = Py.Ok out -> Py.truthy out = true.
Proof.
  intros Hc. apply convert_date_ok in Hc as (d & -> & _). apply strftime_truthy.
Qed.

(** Normalising a canonical text gives it back. *)
Lemma convert_date_strftime `{!DatetimeLibSpec L} (d : datetime) :
  valid_datetime d = true -> (1000 <= year d)%N ->
  convert_date (strftime d) = Py.Ok (strftime d).
Proof.
  intros Hv Hk. apply N.leb_le in Hk. unfold convert_date.
  now rewrite (fromisoformat_strftime d Hv Hk).
Qed.

Lemma convert_date_NODELTA `{!DatetimeLibSpec L} :
  convert_date NODELTA_DATE = Py.Ok NODELTA_DATE.
Proof.
  apply (convert_date_strftime (mk_datetime 1970 1 1 0 0 0)); [reflexivity|].
  simpl. lia.
Qed.

(** C5: for the texts A and B of the shape YYYY-MM-DD HH:MM:SS that the
    normaliser returns, A is smaller than B as a text exactly when the date
    A writes is earlier than the date B writes. *)
Theorem canonical_order_is_time_order `{!DatetimeLibSpec L}
    (s1 s2 A B : string) :
  convert_date s1 = Py.Ok A -> convert_date s2 = Py.Ok B ->
  is_canonical A = true -> is_canonical B = true ->
  (exists a b, valid_datetime a = true /\ valid_datetime b = true /\
               A = strftime a /\ B = strftime b) /\
  (forall a b, valid_datetime a = true -> valid_datetime b = true ->
               A = strftime a -> B = strftime b ->
               (String.ltb A B = true <-> (instant a < instant b)%N)).
Proof.
  intros HA HB HcA HcB. split.
  - apply convert_date_valid in HA as (a & Ha & ->).
    apply convert_date_valid in HB as (b & Hb & ->).
    exists a, b. auto.
  - intros a b Ha Hb -> ->. unfold String.ltb.
    rewrite compare_strftime by (assumption || now apply canonical_year).
    rewrite <- compare_instant by assumption.
    rewrite <- N.compare_lt_iff.
    destruct (instant a ?= instant b)%N; split; congruence.
Qed.

(** C6: the normaliser returns the text [strftime] writes for the date read
    by the first parser that accepts the input, and it raises the
    invalid-date error, and nothing else, exactly when both refuse it. The
    text returned has the shape YYYY-MM-DD HH:MM:SS when the year has four
    digits; for a year below 1000 it has not. *)
Theorem convert_date_outcome (date_str : string) :
  (forall d,
     fromisoformat date_str = Some d \/
     (fromisoformat date_str = None /\
      strptime date_str "%Y-%m-%dT%H:%M:%SZ" = Some d) ->
     convert_date date_str = Py.Ok (strftime d) /\
     ((1000 <= year d)%N -> is_canonical (strftime d) = true) /\
     ((year d < 1000)%N -> is_canonical (strftime d) = false)) /\
  (convert_date date_str = Py.Raise (Py.ValueError "Invalid date format") <->
   (fromisoformat date_str = None /\
    strptime date_str "%Y-%m-%dT%H:%M:%SZ" = None)) /\
  (forall e, convert_date date_str = Py.Raise e ->
             e = Py.ValueError "Invalid date format").
Proof.
  unfold convert_date. split; [|split].
  - intros d [Hiso | [Hiso Hz]]; rewrite Hiso; [|rewrite Hz];
      (split; [reflexivity|]); split;
      (apply strftime_canonical || apply strftime_short).
  - destruct (fromisoformat date_str) as [d|];
      [|destruct (strptime date_str _) as [d|]]; split;
      try discriminate; try (intros [? ?]; discriminate); auto.
  - destruct (fromisoformat date_str) as [d|];
      [|destruct (strptime date_str _) as [d|]]; try discriminate.
    intros e [= <-]. reflexivity.
Qed.

End ConvertDate.

Lemma canonical_order_is_time_order_witness :
  (String.ltb "2023-01-01 00:00:00" "2023-06-01 00:00:00" = true <->
   (instant (mk_datetime 2023 1 1 0 0 0) < instant (mk_datetime 2023 6 1 0 0 0))%N).
Proof.
  refine (proj2 (@canonical_order_is_time_order FixedWidth.lib
            FixedWidthFacts.lib_spec
            "2023-01-01T00:00:00Z" "2023-06-01 00:00:00"
            "2023-01-01 00:00:00" "2023-06-01 00:00:00"
            eq_refl eq_refl eq_refl eq_refl)
            (mk_datetime 2023 1 1 0 0 0) (mk_datetime 2023 6 1 0 0 0)
            eq_refl eq_refl eq_refl eq_refl).
Defined.

(** A date of the year 999: the text returned has eighteen characters. *)
Lemma convert_date_outcome_witness :
  convert_date (H := FixedWidth.lib) "0999-12-31 23:59:59" =
    Py.Ok "999-12-31 23:59:59" /\
  is_canonical "999-12-31 23:59:59" = false.
Proof.
  destruct (proj1 (convert_date_outcome (L := FixedWidth.lib) "0999-12-31 23:59:59")
              (mk_datetime 999 12 31 23 59 59) (or_introl eq_refl))
    as (Hrun & _ & Hshort).
  split; [exact Hrun|]. apply Hshort. reflexivity.
Defined.

(** ** Cutting the body text into blocks *)

Section Chunks.

Lemma substring_sdrop (n j l : nat) (s : string) :
  substring (n + j) l s = substring j l (sdrop n s).
Proof.
  revert s. induction n as [|n IH]; intros s; [reflexivity|].
  destruct s as [|c s]; simpl.
  - destruct j, l; reflexivity.
  - apply IH.
Qed.

Lemma take_sdrop (n : nat) (s : string) :
  Py.cat (substring 0 n s) (sdrop n s) = s.
Proof.
  revert s. induction n as [|n IH]; intros [|c s]; simpl; try reflexivity.
  f_equal. apply IH.
Qed.

Lemma length_sdrop (n : nat) (s : string) :
  String.length (sdrop n s) = String.length s - n.
Proof.
  revert s. induction n as [|n IH]; intros [|c s]; simpl; auto with arith.
Qed.

Lemma length_substring (i n : nat) (s : string) :
  String.length (substring i n s) = Nat.min n (String.length s - i).
Proof.
  revert i n. induction s as [|c s IH]; intros [|i] [|n]; simpl; auto;
    rewrite IH; simpl; lia.
Qed.

Lemma length_empty (s : string) : String.length s = 0 -> s = "".
Proof. destruct s; [reflexivity | discriminate]. Qed.

(** Cutting at the multiples of [n] and gluing the pieces gives the text
    back, provided the cuts reach its end. *)
Lemma glue_chunks (n m : nat) (s : string) :
  String.length s <= m * n ->
  fold_right Py.cat "" (map (fun k => substring (k * n) n s) (seq 0 m)) = s.
Proof.
  revert s. induction m as [|m IH]; intros s Hlen.
  - simpl. symmetry. apply length_empty. lia.
  - rewrite <- cons_seq, <- seq_shift. simpl. rewrite map_map.
    transitivity (Py.cat (substring 0 n s) (sdrop n s)); [|apply take_sdrop].
    f_equal.
    transitivity (fold_right Py.cat ""
                    (map (fun k => substring (k * n) n (sdrop n s)) (seq 0 m))).
    + f_equal. apply map_ext. intros k. simpl.
      rewrite <- substring_sdrop. reflexivity.
    + apply IH. rewrite length_sdrop. lia.
Qed.

Lemma content_blocks_eq (T : string) :
  content_blocks T =
  map (fun k => substring (k * 2000) 2000 T)
      (seq 0 ((String.length T + 1999) / 2000)).
Proof.
  unfold content_blocks, Py.range, Py.slice. rewrite map_map.
  replace (String.length T - 0 + 2000 - 1) with (String.length T + 1999) by lia.
  apply map_ext. intros k. simpl. f_equal. lia.
Qed.

Lemma content_blocks_glue (T : string) :
  fold_right Py.cat "" (content_blocks T) = T.
Proof.
  rewrite content_blocks_eq. apply glue_chunks.
  pose proof (Nat.div_mod_eq (String.length T + 1999) 2000).
  pose proof (Nat.mod_upper_bound (String.length T + 1999) 2000). lia.
Qed.

Lemma content_blocks_length (T : string) :
  length (content_blocks T) = (String.length T + 1999) / 2000.
Proof. rewrite content_blocks_eq, length_map, length_seq. reflexivity. Qed.

Lemma content_blocks_lookup (T : string) (i : nat) (b : string) :
  content_blocks T !! i = Some b ->
  i < (String.length T + 1999) / 2000 /\
  b = substring (i * 2000) 2000 T.
Proof.
  rewrite content_blocks_eq. intros Hb.
  apply list_lookup_fmap_Some in Hb as (k & -> & Hk).
  apply lookup_seq in Hk as [-> Hk]. auto.
Qed.

Lemma content_blocks_full (T : string) (i : nat) (b : string) :
  content_blocks T !! i = Some b -> i + 1 < length (content_blocks T) ->
  String.length b = 2000.
Proof.
  intros Hb Hi. rewrite content_blocks_length in Hi.
  apply content_blocks_lookup in Hb as [_ ->].
  rewrite length_substring.
  pose proof (Nat.div_mod_eq (String.length T + 1999) 2000).
  pose proof (Nat.mod_upper_bound (String.length T + 1999) 2000). lia.
Qed.

Lemma content_blocks_last (T : string) (b : string) :
  last (content_blocks T) = Some b -> 1 <= String.length b <= 2000.
Proof.
  rewrite last_lookup, content_blocks_length. intros Hb.
  apply content_blocks_lookup in Hb as [Hi ->].
  rewrite length_substring.
  pose proof (Nat.div_mod_eq (String.length T + 1999) 2000).
  pose proof (Nat.mod_upper_bound (String.length T + 1999) 2000). lia.
Qed.

End Chunks.

(** ** The retry loop *)

Section Retry.

Variable remote : nat -> response.
Variable g : Globals.

Local Abbreviation after_failures := (after_failures remote g).
Local Abbreviation after_success := (after_success remote g).

Lemma after_failures_0 data st : after_failures data 0 st = st.
Proof.
  destruct st. unfold after_failures. simpl.
  rewrite app_nil_r, Nat.add_0_r. reflexivity.
Qed.

Lemma after_failures_S data n st :
  after_failures data (S n) st = after_failures data n (after_failures data 1 st).
Proof.
  unfold after_failures. simpl. f_equal; [|lia].
  rewrite <- app_assoc. f_equal. simpl. do 4 f_equal.
  rewrite <- seq_shift, !flat_map_concat_map, map_map. f_equal.
  apply map_ext. intros i. do 2 f_equal. lia.
Qed.

Lemma post_until_created_fail fuel title data st :
  status_code (remote (posts st)) <> 200 ->
  post_until_created remote (S fuel) g title data st =
  post_until_created remote fuel g title data (after_failures data 1 st).
Proof.
  intros Hne. simpl. unfold bind, requests_post. simpl.
  apply Nat.eqb_neq in Hne. rewrite Hne.
  unfold logging_error, logging_info, time_sleep, emit. simpl.
  f_equal. unfold after_failures. simpl.
  rewrite Nat.add_0_r, <- !app_assoc. simpl.
  f_equal. lia.
Qed.

Lemma post_until_created_ok fuel title data st :
  status_code (remote (posts st)) = 200 ->
  post_until_created remote (S fuel) g title data st =
  (Returned tt, after_success title data st).
Proof.
  intros He. simpl. unfold bind, requests_post. simpl.
  apply Nat.eqb_eq in He. rewrite He.
  unfold logging_info, emit, after_success. simpl.
  rewrite <- !app_assoc. reflexivity.
Qed.

(** [n] failed attempts use up [n] iterations. *)
Lemma post_until_created_failures n fuel title data st :
  (forall i, i < n -> status_code (remote (posts st + i)) <> 200) ->
  post_until_created remote (n + fuel) g title data st =
  post_until_created remote fuel g title data (after_failures data n st).
Proof.
  revert st. induction n as [|n IH]; intros st Hfail.
  - now rewrite after_failures_0.
  - change (S n + fuel) with (S (n + fuel)).
    rewrite post_until_created_fail.
    2:{ specialize (Hfail 0). rewrite Nat.add_0_r in Hfail. apply Hfail. lia. }
    rewrite IH, <- after_failures_S; [reflexivity|].
    intros i Hi. simpl. rewrite <- Nat.add_assoc. apply Hfail. lia.
Qed.

(** With the first success at attempt [n], more than [n] iterations end
    the loop. *)
Lemma post_until_created_returns n fuel title data st :
  first_ok remote (posts st) n -> n < fuel ->
  post_until_created remote fuel g title data st =
  (Returned tt, after_success title data (after_failures data n st)).
Proof.
  intros [Hfail Hok] Hlt.
  replace fuel with (n + S (fuel - S n)) by lia.
  rewrite post_until_created_failures by assumption.
  apply post_until_created_ok. exact Hok.
Qed.

(** Without a success within the given iterations the loop is still
    running. *)
Lemma post_until_created_unfinished fuel title data st :
  (forall i, i < fuel -> status_code (remote (posts st + i)) <> 200) ->
  post_until_created remote fuel g title data st =
  (Unfinished, after_failures data fuel st).
Proof.
  intros Hfail. rewrite <- (Nat.add_0_r fuel) at 1.
  rewrite post_until_created_failures by assumption. reflexivity.
Qed.

(** The loop, iteration by iteration: either it meets a first success
    before the iterations run out, or all of them fail. *)
Lemma first_ok_or_none (k fuel : nat) :
  (exists n, n < fuel /\ first_ok remote k n) \/
  (forall i, i < fuel -> status_code (remote (k + i)) <> 200).
Proof.
  induction fuel as [|fuel [(n & Hn & Hok) | Hnone]].
  - right. intros i Hi. lia.
  - left. exists n. split; [lia | assumption].
  - destruct (Nat.eq_dec (status_code (remote (k + fuel))) 200) as [He|Hne].
    + left. exists fuel. split; [lia|]. split; assumption.
    + right. intros i Hi. destruct (Nat.eq_dec i fuel) as [->|]; [assumption|].
      apply Hnone. lia.
Qed.

Lemma first_ok_unique (k n m : nat) :
  first_ok remote k n -> first_ok remote k m -> n = m.
Proof.
  intros [Hn1 Hn2] [Hm1 Hm2].
  destruct (Nat.lt_trichotomy n m) as [Hlt | [-> | Hlt]]; [|reflexivity|].
  - now apply Hm1 in Hlt.
  - now apply Hn1 in Hlt.
Qed.

End Retry.

(** ** The publisher *)

Lemma since_app (st st' : state) (tr : list event) :
  trace st' = trace st ++ tr -> since st st' = tr.
Proof. unfold since. intros ->. apply drop_app_length. Qed.

Lemma sent_app (tr1 tr2 : list event) : sent (tr1 ++ tr2) = sent tr1 ++ sent tr2.
Proof. apply omap_app. Qed.

Lemma created_app (tr1 tr2 : list event) :
  created (tr1 ++ tr2) = created tr1 ++ created tr2.
Proof. apply omap_app. Qed.

Lemma count_app (p : event -> bool) (tr1 tr2 : list event) :
  count p (tr1 ++ tr2) = count p tr1 + count p tr2.
Proof. unfold count. now rewrite List.filter_app, length_app. Qed.

Section Publisher.

Variable remote : nat -> response.
Variable g : Globals.

Local Abbreviation failures data n k :=
  (flat_map (fun i => failed_attempt g data (remote (k + i))) (seq 0 n)).

Lemma sent_failures data n k :
  Forall (fun d => d = data) (sent (failures data n k)).
Proof.
  induction (seq 0 n) as [|i l IH]; simpl; constructor; auto.
Qed.

Lemma created_failures data n k :
  (forall i, i < n -> status_code (remote (k + i)) <> 200) ->
  created (failures data n k) = [].
Proof.
  intros Hfail.
  assert (Hall : Forall (fun i => i < n) (seq 0 n)).
  { apply List.Forall_forall. intros i Hi. apply in_seq in Hi. lia. }
  induction Hall as [|i l Hi _ IH]; simpl; [reflexivity|].
  apply Hfail, Nat.eqb_neq in Hi. rewrite Hi. exact IH.
Qed.

Lemma count_failures data n k :
  count is_error_line (failures data n k) = n /\
  count is_sleep (failures data n k) = n /\
  forall title, count (is_created_line title) (failures data n k) = 0.
Proof.
  assert (Hl : forall l : list nat,
    let tr := flat_map (fun i => failed_attempt g data (remote (k + i))) l in
    count is_error_line tr = length l /\
    count is_sleep tr = length l /\
    forall title, count (is_created_line title) tr = 0).
  { unfold count. induction l as [|i l (IH1 & IH2 & IH3)]; simpl; auto. }
  specialize (Hl (seq 0 n)). now rewrite length_seq in Hl.
Qed.

(** C4: the publisher returns only once the service has answered 200.
    Every answer before that one is logged with its status and body and
    followed by a sleep of 60 seconds and the same request again, as many
    times as it takes; with the answers 429, 429, 200 it logs two error
    lines, sleeps twice, logs one success line and returns. *)
Theorem publisher_retries_until_success (fuel : nat)
    (parent_page_id title_content main_content source_content : string)
    (st : state) :
  let data := request_data g parent_page_id title_content main_content
                           source_content in
  let run := create_notion_page remote fuel g parent_page_id title_content
                                (Some main_content) source_content st in
  (forall n, first_ok remote (posts st) n -> n < fuel ->
     fst run = Returned tt /\
     since st (snd run) =
       failures data n (posts st) ++
       successful_attempt g title_content data (remote (posts st + n))) /\
  ((forall i, i < fuel -> status_code (remote (posts st + i)) <> 200) ->
     fst run = Unfinished /\
     since st (snd run) = failures data fuel (posts st)) /\
  (fst run = Returned tt ->
     exists n, n < fuel /\ first_ok remote (posts st) n) /\
  (status_code (remote (posts st)) = 429 ->
   status_code (remote (posts st + 1)) = 429 ->
   status_code (remote (posts st + 2)) = 200 ->
   3 <= fuel ->
     fst run = Returned tt /\
     count is_error_line (since st (snd run)) = 2 /\
     count is_sleep (since st (snd run)) = 2 /\
     count (is_created_line title_content) (since st (snd run)) = 1).
Proof.
  intros data run. subst run. unfold create_notion_page. fold data.
  assert (Hret : forall n, first_ok remote (posts st) n -> n < fuel ->
     fst (post_until_created remote fuel g title_content data st) = Returned tt /\
     since st (snd (post_until_created remote fuel g title_content data st)) =
       failures data n (posts st) ++
       successful_attempt g title_content data (remote (posts st + n))).
  { intros n Hok Hlt.
    rewrite (post_until_created_returns remote g n fuel _ _ _ Hok Hlt).
    split; [reflexivity|]. apply since_app. simpl.
    now rewrite <- app_assoc. }
  assert (Hnone : (forall i, i < fuel -> status_code (remote (posts st + i)) <> 200) ->
     fst (post_until_created remote fuel g title_content data st) = Unfinished /\
     since st (snd (post_until_created remote fuel g title_content data st)) =
       failures data fuel (posts st)).
  { intros Hfail.
    rewrite (post_until_created_unfinished remote g fuel _ _ _ Hfail).
    split; [reflexivity|]. now apply since_app. }
  split; [exact Hret|]. split; [exact Hnone|]. split.
  - intros Hr.
    destruct (first_ok_or_none remote (posts st) fuel) as [Hsome | Hfail];
      [exact Hsome|].
    apply Hnone in Hfail as [Hu _]. congruence.
  - intros H0 H1 H2 Hfuel.
    assert (Hok : first_ok remote (posts st) 2).
    { split; [|exact H2]. intros i Hi.
      destruct i as [|[|i]]; [rewrite Nat.add_0_r| |lia]; congruence. }
    destruct (Hret 2 Hok ltac:(lia)) as [Hr Hs].
    split; [exact Hr|]. rewrite Hs, !count_app.
    destruct (count_failures data 2 (posts st)) as (-> & -> & ->).
    unfold count. simpl. rewrite String.eqb_refl. auto.
Qed.

Lemma sent_post_until_created fuel title data st :
  let tr := since st (snd (post_until_created remote fuel g title data st)) in
  Forall (fun d => d = data) (sent tr) /\ (0 < fuel -> sent tr <> []).
Proof.
  cbv zeta.
  destruct (first_ok_or_none remote (posts st) fuel) as [(n & Hlt & Hok) | Hfail].
  - rewrite (post_until_created_returns remote g n fuel _ _ _ Hok Hlt).
    erewrite since_app by (simpl; rewrite <- app_assoc; reflexivity).
    rewrite sent_app. split.
    + apply Forall_app. split; [apply sent_failures | repeat constructor].
    + intros _ Hnil. apply app_eq_nil in Hnil as [_ Hnil]. discriminate.
  - rewrite (post_until_created_unfinished remote g fuel _ _ _ Hfail).
    erewrite since_app by reflexivity.
    split; [apply sent_failures|].
    intros Hpos. destruct fuel; [lia|]. discriminate.
Qed.

(** C3: the request carries the body cut into blocks in the order of the
    text, block number i being the characters from 2000 i on, each block
    2000 characters long except the last, which has between 1 and 2000;
    the blocks glued together are the body; after them comes exactly one
    block, the attribution, and it alone is marked italic. *)
Theorem body_is_cut_into_blocks
    (parent_page_id title_content T source_content : string) :
  let data := request_data g parent_page_id title_content T source_content in
  let blocks := content_blocks T in
  children data = map paragraph blocks ++ [source_paragraph source_content] /\
  fold_right Py.cat "" blocks = T /\
  (forall i b, blocks !! i = Some b -> b = substring (i * 2000) 2000 T) /\
  (forall i b, blocks !! i = Some b -> i + 1 < length blocks ->
               String.length b = 2000) /\
  (forall b, last blocks = Some b -> 1 <= String.length b <= 2000) /\
  (forall b, paragraph b =
             {| rich_text := [ {| content := b; text_annotations := None |} ] |}) /\
  source_paragraph source_content =
    {| rich_text := [ {| content := source_content;
                         text_annotations := Some {| italic := true |} |} ] |} /\
  (forall fuel st,
     let tr := since st (snd (create_notion_page remote fuel g parent_page_id
                                title_content (Some T) source_content st)) in
     Forall (fun d => d = data) (sent tr) /\ (0 < fuel -> sent tr <> [])).
Proof.
  intros data blocks. repeat split.
  - apply content_blocks_glue.
  - intros i b Hb. now apply content_blocks_lookup in Hb.
  - intros i b. apply content_blocks_full.
  - now apply content_blocks_last in H.
  - now apply content_blocks_last in H.
  - apply sent_post_until_created.
  - apply sent_post_until_created.
Qed.

End Publisher.

Lemma publisher_retries_until_success_witness :
  let run := create_notion_page Example.flaky 3 Example.g "page-1" "Highlight: Chapter"
               (Some "first") "Source: Chapter, Author" (Example.world "" true) in
  fst run = Returned tt /\
  count is_error_line (since (Example.world "" true) (snd run)) = 2 /\
  count is_sleep (since (Example.world "" true) (snd run)) = 2 /\
  count (is_created_line "Highlight: Chapter") (since (Example.world "" true) (snd run)) = 1.
Proof.
  apply (proj2 (proj2 (proj2 (publisher_retries_until_success Example.flaky Example.g
           3 "page-1" "Highlight: Chapter" "first" "Source: Chapter, Author"
           (Example.world "" true)))));
    [reflexivity | reflexivity | reflexivity | lia].
Defined.

Lemma body_is_cut_into_blocks_witness :
  String.length (substring 0 2000 (Example.repeat_char "a" 4001)) = 2000.
Proof.
  apply (proj1 (proj2 (proj2 (proj2 (body_is_cut_into_blocks Example.steady Example.g
           "page-1" "Highlight: Chapter" (Example.repeat_char "a" 4001)
           "Source: Chapter, Author")))) 0);
    [vm_compute; reflexivity | vm_compute; lia].
Defined.

(** ** The export loop *)

Lemma grows_refl (st : state) : grows st st [].
Proof. unfold grows. now rewrite app_nil_r. Qed.

Lemma grows_trans (st1 st2 st3 : state) (tr1 tr2 : list event) :
  grows st1 st2 tr1 -> grows st2 st3 tr2 -> grows st1 st3 (tr1 ++ tr2).
Proof.
  intros (Hf1 & Hc1 & Ht1) (Hf2 & Hc2 & Ht2). unfold grows.
  rewrite Hf2, Hc2, Ht2, Ht1, app_assoc. auto.
Qed.

Lemma grows_since (st st' : state) (tr : list event) :
  grows st st' tr -> since st st' = tr.
Proof. intros (_ & _ & Ht). now apply since_app. Qed.

Lemma bump_some (l c m : string) :
  bump (Some l) c m = Some (str_max (str_max l c) m).
Proof. reflexivity. Qed.

Lemma bump_none (c m : string) : bump None c m = Some (str_max c m).
Proof. reflexivity. Qed.

Section ExportLoop.

Context `{L : DatetimeLib}.
Variable remote : nat -> response.
Variable g : Globals.

Lemma grows_after_failures data n st :
  grows st (after_failures remote g data n st)
    (flat_map (fun i => failed_attempt g data (remote (posts st + i))) (seq 0 n)).
Proof. repeat split. Qed.

Lemma grows_after_success title data st :
  grows st (after_success remote g title data st)
    (successful_attempt g title data (remote (posts st))).
Proof. repeat split. Qed.

Lemma created_successful_attempt title data r :
  status_code r = 200 -> created (successful_attempt g title data r) = [data].
Proof. intros Hr. simpl. apply Nat.eqb_eq in Hr. now rewrite Hr. Qed.

(** Where the service ends up accepting, enough iterations create the
    page, once. *)
Lemma post_until_created_creates title data st :
  responsive remote ->
  exists st' tr fuel0,
    grows st st' tr /\ created tr = [data] /\
    forall fuel, fuel0 <= fuel ->
      post_until_created remote fuel g title data st = (Returned tt, st').
Proof.
  intros Hresp. destruct (Hresp (posts st)) as [n Hok].
  eexists _, _, (S n). split; [|split].
  - eapply grows_trans; [apply grows_after_failures | apply grows_after_success].
  - rewrite created_app, created_failures by apply Hok.
    apply created_successful_attempt. simpl. apply Hok.
  - intros fuel Hfuel. apply post_until_created_returns; [assumption | lia].
Qed.

(** Whatever the service does, the loop only adds to the trace, and it
    returns only with a page created. *)
Lemma post_until_created_frame fuel title data st o st' :
  post_until_created remote fuel g title data st = (o, st') ->
  exists tr, grows st st' tr /\ (o = Returned tt -> created tr <> []).
Proof.
  destruct (first_ok_or_none remote (posts st) fuel) as [(n & Hlt & Hok) | Hfail].
  - rewrite (post_until_created_returns remote g n fuel _ _ _ Hok Hlt).
    intros [= <- <-]. eexists. split.
    + eapply grows_trans; [apply grows_after_failures | apply grows_after_success].
    + intros _. rewrite created_app, created_failures by apply Hok.
      rewrite created_successful_attempt by (simpl; apply Hok). discriminate.
  - rewrite (post_until_created_unfinished remote g fuel _ _ _ Hfail).
    intros [= <- <-]. eexists. split; [apply grows_after_failures | discriminate].
Qed.

Lemma export_item_skip fuel delta it latest st :
  runs_clean delta it -> publishable delta it = false ->
  export_item remote fuel g delta it latest st = (Returned latest, st).
Proof.
  intros ([t Ht] & [[c m] Hn] & _) Hp.
  unfold publishable in Hp. rewrite Hn in Hp.
  unfold normalized in Hn.
  destruct (convert_date (datecreated it)) as [c'|] eqn:Hc; [|discriminate].
  destruct (convert_date (datemodified it)) as [m'|] eqn:Hm; [|discriminate].
  injection Hn as -> ->.
  unfold export_item, bind, lift, ret. rewrite Ht, Hc, Hm, Hp. reflexivity.
Qed.

Lemma export_item_publish delta it latest st :
  responsive remote -> runs_clean delta it -> publishable delta it = true ->
  exists st' tr fuel0 c m p,
    normalized it = Some (c, m) /\ page_of g it = Some p /\
    grows st st' tr /\ created tr = [p] /\
    forall fuel, fuel0 <= fuel ->
      export_item remote fuel g delta it latest st =
      (Returned (bump latest c m), st').
Proof.
  intros Hresp ([t Ht] & [[c m] Hn] & Htxt) Hp.
  destruct (Htxt Hp) as [txt Htx].
  pose proof Hp as Hp'. unfold publishable in Hp'. rewrite Hn in Hp'.
  pose proof Hn as Hn'. unfold normalized in Hn'.
  destruct (convert_date (datecreated it)) as [c'|] eqn:Hc; [|discriminate].
  destruct (convert_date (datemodified it)) as [m'|] eqn:Hm; [|discriminate].
  injection Hn' as -> ->.
  unfold page_of. rewrite Ht, Htx.
  match goal with |- context [Some ?p = Some _] => set (data := p) end.
  destruct (post_until_created_creates
              (Py.cat (Py.capitalize t) (Py.cat ": " (Py.fmt (title it))))
              data st Hresp) as (st' & tr & fuel0 & Hg & Hcr & Hrun).
  exists st', tr, fuel0, c, m, data. repeat split; try assumption; try apply Hg.
  intros fuel Hfuel.
  unfold export_item, bind, lift, ret. rewrite Ht, Hc, Hm, Hp'.
  unfold create_notion_page. rewrite Htx. fold data.
  rewrite (Hrun fuel Hfuel). reflexivity.
Qed.

(** The loop over clean items against a responsive service: it returns,
    having created the pages of the publishable items, in order. *)
Lemma export_loop_runs delta items latest st :
  responsive remote -> Forall (runs_clean delta) items ->
  exists st' tr fuel0,
    grows st st' tr /\
    created tr = omap (page_of g) (List.filter (publishable delta) items) /\
    forall fuel, fuel0 <= fuel ->
      export_loop remote fuel g delta items latest st =
      (Returned (newest latest (List.filter (publishable delta) items)), st').
Proof.
  intros Hresp Hall. revert latest st.
  induction Hall as [|it items Hit _ IH]; intros latest st.
  - exists st, [], 0. split; [apply grows_refl|]. split; reflexivity.
  - simpl. destruct (publishable delta it) eqn:Hp.
    + destruct (export_item_publish delta it latest st Hresp Hit Hp)
        as (st1 & tr1 & f1 & c & m & p & Hn & Hpage & Hg1 & Hc1 & Hrun1).
      destruct (IH (bump latest c m) st1) as (st2 & tr2 & f2 & Hg2 & Hc2 & Hrun2).
      exists st2, (tr1 ++ tr2), (Nat.max f1 f2).
      split; [eapply grows_trans; eassumption|]. split.
      * rewrite created_app, Hc1, Hc2. simpl. now rewrite Hpage.
      * intros fuel Hfuel. unfold bind.
        rewrite Hrun1 by lia. rewrite Hrun2 by lia. simpl. now rewrite Hn.
    + destruct (IH latest st) as (st2 & tr2 & f2 & Hg2 & Hc2 & Hrun2).
      exists st2, tr2, f2. split; [assumption|]. split; [assumption|].
      intros fuel Hfuel. unfold bind.
      rewrite export_item_skip by assumption. now apply Hrun2.
Qed.

Lemma create_notion_page_frame fuel pid title main src st o st' :
  create_notion_page remote fuel g pid title main src st = (o, st') ->
  exists tr, grows st st' tr /\ (o = Returned tt -> created tr <> []).
Proof.
  unfold create_notion_page. destruct main as [txt|].
  - apply post_until_created_frame.
  - intros [= <- <-]. exists []. split; [apply grows_refl | discriminate].
Qed.

(** Whatever happens, an item only adds to the trace, and it changes
    [latest_date] only with a page created. *)
Lemma export_item_frame fuel delta it latest st o st' :
  export_item remote fuel g delta it latest st = (o, st') ->
  exists tr, grows st st' tr /\
    (forall l, o = Returned l -> created tr = [] -> l = latest).
Proof.
  unfold export_item, bind, lift, ret, raise.
  destruct (type it) as [t|];
    [|intros [= <- <-]; exists []; split; [apply grows_refl | discriminate]].
  destruct (convert_date (datecreated it)) as [c|];
    [|intros [= <- <-]; exists []; split; [apply grows_refl | discriminate]].
  destruct (convert_date (datemodified it)) as [m|];
    [|intros [= <- <-]; exists []; split; [apply grows_refl | discriminate]].
  destruct (is_new delta c m).
  - destruct (create_notion_page _ _ _ _ _ _ _ _) as [o1 st1] eqn:Hrun.
    apply create_notion_page_frame in Hrun as (tr & Hg & Hcr).
    destruct o1 as [[]| | |]; intros [= <- <-]; exists tr; split; try assumption;
      try discriminate.
    intros l _ Hnil. now destruct Hcr.
  - intros [= <- <-]. exists []. split; [apply grows_refl|].
    intros l [= <-] _. reflexivity.
Qed.

Lemma export_loop_frame fuel delta items latest st o st' :
  export_loop remote fuel g delta items latest st = (o, st') ->
  exists tr, grows st st' tr /\
    (forall l, o = Returned l -> created tr = [] -> l = latest).
Proof.
  revert latest st. induction items as [|it items IH]; intros latest st.
  - intros [= <- <-]. exists []. split; [apply grows_refl|].
    intros l [= <-] _. reflexivity.
  - simpl. unfold bind.
    destruct (export_item _ _ _ _ _ _ _) as [o1 st1] eqn:Hrun.
    apply export_item_frame in Hrun as (tr1 & Hg1 & Hl1).
    destruct o1 as [l1| | |];
      try (intros [= <- <-]; exists tr1; split; [assumption | discriminate]).
    intros Hrest. apply IH in Hrest as (tr2 & Hg2 & Hl2).
    exists (tr1 ++ tr2). split; [eapply grows_trans; eassumption|].
    intros l Ho Hnil. rewrite created_app in Hnil.
    apply app_eq_nil in Hnil as [Hn1 Hn2].
    rewrite (Hl2 l Ho Hn2). now apply Hl1.
Qed.

End ExportLoop.

(** ** The newest date *)

Section Newest.

Context `{L : DatetimeLib}.

Lemma str_max_new (w c m : string) :
  is_new (Some w) c m = true -> str_max (str_max w c) m = str_max c m.
Proof.
  unfold is_new, str_max. intros Hn. apply orb_true_iff in Hn.
  destruct (Py.gt c w) eqn:Hc; [reflexivity|].
  destruct Hn as [Hn | Hm]; [discriminate|]. rewrite Hm.
  assert (Hmc : Py.gt m c = true).
  { apply gt_false in Hc as [-> | Hwc]; [assumption|].
    eapply gt_trans; eassumption. }
  now rewrite Hmc.
Qed.

Lemma newest_some (l : string) (its : list Item) :
  newest (Some l) its = Some (max_dates l its).
Proof.
  revert l. induction its as [|it its IH]; intros l; [reflexivity|].
  simpl. destruct (normalized it) as [[c m]|]; [|apply IH].
  rewrite bump_some. apply IH.
Qed.

Lemma publishable_inv (delta : option string) (it : Item) :
  publishable delta it = true ->
  exists c m, normalized it = Some (c, m) /\ is_new delta c m = true.
Proof.
  unfold publishable. destruct (normalized it) as [[c m]|]; [eauto | discriminate].
Qed.

Lemma normalized_truthy (it : Item) (c m : string) :
  normalized it = Some (c, m) -> Py.truthy c = true /\ Py.truthy m = true.
Proof.
  unfold normalized.
  destruct (convert_date (datecreated it)) as [c'|] eqn:Hc; [|discriminate].
  destruct (convert_date (datemodified it)) as [m'|] eqn:Hm; [|discriminate].
  intros [= <- <-]. split; eapply convert_date_truthy; eassumption.
Qed.

Lemma str_max_truthy (a b : string) :
  Py.truthy a = true -> Py.truthy b = true -> Py.truthy (str_max a b) = true.
Proof. unfold str_max. now destruct (Py.gt b a). Qed.

Lemma max_dates_truthy (w : string) (its : list Item) :
  Py.truthy w = true -> Py.truthy (max_dates w its) = true.
Proof.
  revert w. induction its as [|it its IH]; intros w Hw; [assumption|].
  simpl. destruct (normalized it) as [[c m]|] eqn:Hn; [|now apply IH].
  apply normalized_truthy in Hn as [Hc Hm].
  apply IH. now repeat apply str_max_truthy.
Qed.

(** On published items, what the loop computes from nothing is the largest
    of the prior watermark and of their dates. *)
Lemma newest_published (w : string) (items : list Item) :
  let P := List.filter (publishable (Some w)) items in
  match newest None P with
  | Some l => P <> [] /\ l = max_dates w P /\ Py.truthy l = true
  | None => P = []
  end.
Proof.
  intros P.
  assert (HP : Forall (fun it => publishable (Some w) it = true) P).
  { apply List.Forall_forall. intros it Hit.
    now apply List.filter_In in Hit as [_ Hit]. }
  destruct HP as [|it P' Hit _]; [reflexivity|].
  apply publishable_inv in Hit as (c & m & Hn & Hnew).
  simpl. rewrite Hn, bump_none, newest_some, (str_max_new w c m Hnew).
  split; [discriminate|]. split; [reflexivity|].
  apply normalized_truthy in Hn as [Hc Hm].
  apply max_dates_truthy. now apply str_max_truthy.
Qed.

Lemma newest_truthy (its : list Item) (latest : option string) (l : string) :
  (forall x, latest = Some x -> Py.truthy x = true) ->
  newest latest its = Some l -> Py.truthy l = true.
Proof.
  revert latest. induction its as [|it its IH]; intros latest Hlatest; simpl.
  - intros Hl. now apply Hlatest.
  - destruct (normalized it) as [[c m]|] eqn:Hn; [|now apply IH].
    apply IH. intros x Hx. apply normalized_truthy in Hn as [Hc Hm].
    destruct latest as [y|].
    + rewrite bump_some in Hx. injection Hx as <-.
      repeat apply str_max_truthy; auto.
    + rewrite bump_none in Hx. injection Hx as <-. now apply str_max_truthy.
Qed.

End Newest.

(** ** The largest date *)

Section Largest.

Context `{L : DatetimeLib}.

Lemma le_refl (a : string) : Py.gt a a = false.
Proof. apply gt_irrefl. Qed.

Lemma le_trans (a b c : string) :
  Py.gt a b = false -> Py.gt b c = false -> Py.gt a c = false.
Proof.
  intros Hab Hbc. apply gt_false in Hab as [-> | Hab]; [assumption|].
  apply gt_false in Hbc as [<- | Hbc]; apply gt_false; right; [assumption|].
  eapply gt_trans; eassumption.
Qed.

Lemma str_max_l (a b : string) : Py.gt a (str_max a b) = false.
Proof.
  unfold str_max. destruct (Py.gt b a) eqn:E; [|apply le_refl].
  apply gt_false. now right.
Qed.

Lemma str_max_r (a b : string) : Py.gt b (str_max a b) = false.
Proof. unfold str_max. destruct (Py.gt b a) eqn:E; [apply le_refl | exact E]. Qed.

Lemma str_max_cases (a b : string) : str_max a b = a \/ str_max a b = b.
Proof. unfold str_max. destruct (Py.gt b a); auto. Qed.

Lemma max_dates_ge (w : string) (its : list Item) :
  Py.gt w (max_dates w its) = false.
Proof.
  revert w. induction its as [|it its IH]; intros w; [apply le_refl|].
  simpl. destruct (normalized it) as [[c m]|]; [|apply IH].
  eapply le_trans; [|apply IH].
  eapply le_trans; apply str_max_l.
Qed.

(** [max_dates w its] is the largest of [w] and of the dates of [its]:
    none of them is larger, and it is one of them. *)
Lemma max_dates_is_max (w : string) (its : list Item) :
  let M := max_dates w its in
  Py.gt w M = false /\
  (forall it c m, In it its -> normalized it = Some (c, m) ->
                  Py.gt c M = false /\ Py.gt m M = false) /\
  (M = w \/ exists it c m, In it its /\ normalized it = Some (c, m) /\
                           (M = c \/ M = m)).
Proof.
  cbv zeta. split; [apply max_dates_ge|]. revert w.
  induction its as [|it its IH]; intros w.
  - split; [intros ? ? ? []|]. now left.
  - simpl. destruct (normalized it) as [[c m]|] eqn:Hn.
    + destruct (IH (str_max (str_max w c) m)) as [Hub Hat]. split.
      * intros it' c' m' [<- | Hin] Hn'; [|eapply Hub; eassumption].
        rewrite Hn in Hn'. injection Hn' as <- <-. split.
        -- eapply le_trans; [|apply max_dates_ge].
           eapply le_trans; [apply str_max_r | apply str_max_l].
        -- eapply le_trans; [|apply max_dates_ge]. apply str_max_r.
      * destruct Hat as [Hat | (it' & c' & m' & Hin & Hn' & Hat)].
        -- rewrite Hat.
           destruct (str_max_cases (str_max w c) m) as [-> | ->];
             [destruct (str_max_cases w c) as [-> | ->]|].
           ++ now left.
           ++ right. exists it, c, m. auto.
           ++ right. exists it, c, m. auto.
        -- right. exists it', c', m'. auto.
    + destruct (IH w) as [Hub Hat]. split.
      * intros it' c' m' [<- | Hin] Hn'; [congruence | eapply Hub; eassumption].
      * destruct Hat as [Hat | (it' & c' & m' & Hin & Hn' & Hat)]; [now left|].
        right. exists it', c', m'. auto.
Qed.

Lemma omap_Forall2 {A B} (f : A -> option B) (l : list A) :
  (forall x, In x l -> is_Some (f x)) ->
  Forall2 (fun x y => f x = Some y) l (omap f l).
Proof.
  induction l as [|x l IH]; intros Hall; simpl; [constructor|].
  destruct (Hall x (or_introl eq_refl)) as [y Hy]. rewrite Hy. simpl.
  constructor; [assumption|]. apply IH. intros z Hz. apply Hall. now right.
Qed.

Lemma is_new_spec (delta : option string) (c m : string) :
  is_new delta c m = true <->
  delta = None \/
  exists w, delta = Some w /\ (String.ltb w c = true \/ String.ltb w m = true).
Proof.
  destruct delta as [w|]; simpl.
  - rewrite orb_true_iff. unfold Py.gt. split.
    + intros Hw. right. eauto.
    + intros [Hd | (w' & [= <-] & Hw)]; [discriminate | assumption].
  - split; auto.
Qed.

End Largest.

(** ** Reading the database and writing the watermark *)

Section ExportItems.

Context `{L : DatetimeLib}.
Variable SCRIPT_DIR : string.
Variable remote : nat -> response.
Variable g : Globals.

Local Abbreviation config_path := (config_path SCRIPT_DIR).
Local Abbreviation parsing := (Log INFO "Parsing database" []).
Local Abbreviation unreadable :=
  (Log ERROR "Unexpected error reading your KoboReader.sqlite file:"
       [Py.DatabaseError]).

Lemma map_to_dict (items : list Item) : map to_dict items = items.
Proof. induction items as [|it items IH]; simpl; [reflexivity | now rewrite IH]. Qed.

Lemma parse_database_ok cache rows st :
  fs st !! cache = Some (Sqlite (Some rows)) ->
  exists st1, parse_database cache st = (Returned (map Item_init rows), st1) /\
              grows st st1 [parsing].
Proof.
  intros Hf. unfold parse_database, bind, logging_info, emit, get_fs. simpl.
  rewrite Hf, map_to_dict. eexists. split; [reflexivity|]. repeat split.
Qed.

(** Any failure of the read ends in the empty list and one error line. *)
Lemma parse_database_fail cache st :
  (forall rows, fs st !! cache <> Some (Sqlite (Some rows))) ->
  exists st1, parse_database cache st = (Returned [], st1) /\
    config st1 = config st /\
    trace st1 = trace st ++ [parsing; unreadable] /\
    fs st1 = match fs st !! cache with
             | Some _ => fs st
             | None => <[cache := Sqlite None]> (fs st)
             end.
Proof.
  intros Hf. unfold parse_database, bind, logging_info, logging_error, emit,
    get_fs, put_fs, ret. simpl.
  destruct (fs st !! cache) as [[[rows|]|c|s]|] eqn:E; simpl;
    try (now destruct (Hf rows));
    (eexists; split; [reflexivity|]; simpl; rewrite <- app_assoc; auto).
Qed.

(** In every case the read returns, creates no page, leaves [config] and
    every existing file alone. *)
Lemma parse_database_frame cache st :
  exists items st1 tr,
    parse_database cache st = (Returned items, st1) /\
    config st1 = config st /\ trace st1 = trace st ++ tr /\ created tr = [] /\
    posts st1 = posts st /\
    (forall p, is_Some (fs st !! p) -> fs st1 !! p = fs st !! p).
Proof.
  unfold parse_database, bind, logging_info, logging_error, emit,
    get_fs, put_fs, ret. simpl.
  destruct (fs st !! cache) as [[[rows|]|c|s]|] eqn:E; simpl;
    do 3 eexists; (split; [reflexivity|]); simpl; rewrite <- ?app_assoc;
    repeat split; auto.
  intros p [x Hp]. rewrite lookup_insert_ne; [reflexivity|]. congruence.
Qed.

Lemma persist_none st : persist SCRIPT_DIR None st = (Returned tt, st).
Proof. reflexivity. Qed.

Lemma persist_some l c st :
  Py.truthy l = true -> config st = Some c ->
  persist SCRIPT_DIR (Some l) st =
  (Returned tt,
   {| fs := <[config_path := Yaml (set_delta_date c l)]> (fs st);
      config := Some (set_delta_date c l);
      trace := trace st; posts := posts st |}).
Proof.
  intros Hl Hc. unfold persist, bind, get_config, put_config, get_fs, put_fs.
  rewrite Hl, Hc. reflexivity.
Qed.

(** The export over a readable database, clean items and a responsive
    service: it returns; the pages of the publishable items were created,
    in order; the watermark was written if and only if there were any. *)
Lemma export_kobo_items_runs cache rows delta c st :
  fs st !! cache = Some (Sqlite (Some rows)) ->
  config st = Some c ->
  responsive remote ->
  Forall (runs_clean delta) (map Item_init rows) ->
  let P := List.filter (publishable delta) (map Item_init rows) in
  exists st' tr fuel0,
    trace st' = trace st ++ tr /\
    created tr = omap (page_of g) P /\
    (forall fuel, fuel0 <= fuel ->
       export_kobo_items SCRIPT_DIR remote fuel g cache delta st =
       (Returned tt, st')) /\
    match newest None P with
    | Some l => config st' = Some (set_delta_date c l) /\
                fs st' = <[config_path := Yaml (set_delta_date c l)]> (fs st)
    | None => config st' = config st /\ fs st' = fs st
    end.
Proof.
  intros Hf Hc Hresp Hclean P.
  destruct (parse_database_ok cache rows st Hf) as (st1 & Hparse & Hf1 & Hc1 & Ht1).
  destruct (export_loop_runs remote g delta (map Item_init rows) None st1
              Hresp Hclean) as (st2 & tr2 & fuel0 & (Hf2 & Hc2 & Ht2) & Hcr & Hrun).
  fold P in Hcr, Hrun.
  destruct (newest None P) as [l|] eqn:Hl.
  - assert (Htr : Py.truthy l = true).
    { eapply newest_truthy; [|exact Hl]. discriminate. }
    eexists _, ([parsing] ++ tr2), fuel0. split; [|split; [|split]].
    2:{ rewrite created_app. exact Hcr. }
    2:{ intros fuel Hfuel. unfold export_kobo_items, bind.
        rewrite Hparse, (Hrun fuel Hfuel).
        apply (persist_some l c); [assumption | congruence]. }
    + simpl. rewrite Ht2, Ht1, <- app_assoc. reflexivity.
    + simpl. rewrite Hf2, Hf1. auto.
  - exists st2, ([parsing] ++ tr2), fuel0. split; [|split; [|split]].
    + rewrite Ht2, Ht1, <- app_assoc. reflexivity.
    + rewrite created_app. exact Hcr.
    + intros fuel Hfuel. unfold export_kobo_items, bind.
      rewrite Hparse, (Hrun fuel Hfuel). apply persist_none.
    + split; congruence.
Qed.

(** Whatever happens during the export, without a page created nothing is
    written: [config] and every existing file are as before. *)
Lemma export_kobo_items_frame fuel cache delta st o st' :
  export_kobo_items SCRIPT_DIR remote fuel g cache delta st = (o, st') ->
  created (since st st') = [] ->
  config st' = config st /\
  (forall p, is_Some (fs st !! p) -> fs st' !! p = fs st !! p).
Proof.
  unfold export_kobo_items, bind.
  destruct (parse_database_frame cache st)
    as (items & st1 & tr1 & -> & Hc1 & Ht1 & Hcr1 & _ & Hf1).
  destruct (export_loop _ _ _ _ _ _ _) as [o2 st2] eqn:Hloop.
  apply export_loop_frame in Hloop as (tr2 & (Hf2 & Hc2 & Ht2) & Hl).
  assert (Hsince : forall s, trace s = trace st2 -> created (since st s) = [] ->
                             created tr2 = []).
  { intros s Hs. rewrite (since_app st s (tr1 ++ tr2)).
    - rewrite created_app, Hcr1. auto.
    - rewrite Hs, Ht2, Ht1, app_assoc. reflexivity. }
  assert (Hkeep : config st2 = config st /\
                  (forall p, is_Some (fs st !! p) -> fs st2 !! p = fs st !! p)).
  { split; [congruence|]. intros p Hp. rewrite Hf2. now apply Hf1. }
  destruct o2 as [l| | |]; try (intros [= <- <-] _; exact Hkeep).
  intros Hp Hnil.
  assert (Htr : trace st' = trace st2).
  { revert Hp. unfold persist, bind, get_config, put_config, get_fs, put_fs, ret.
    destruct l as [x|]; [|now intros [= _ <-]].
    destruct (Py.truthy x); [|now intros [= _ <-]].
    destruct (config st2); now intros [= _ <-]. }
  rewrite (Hl l eq_refl (Hsince st' Htr Hnil)) in Hp.
  rewrite persist_none in Hp. injection Hp as _ <-. exact Hkeep.
Qed.

(** C1: when the export returns, the watermark in the configuration (in
    memory and in the file) is the largest of the prior watermark and of
    the created and modified dates of the items that were published; the
    items the filter skipped do not enter it. *)
Theorem watermark_is_newest_published cache rows c w st :
  fs st !! cache = Some (Sqlite (Some rows)) ->
  config st = Some c ->
  fs st !! config_path = Some (Yaml c) ->
  kobo2notion_delta_date c = w ->
  responsive remote ->
  Forall (runs_clean (Some w)) (map Item_init rows) ->
  let P := List.filter (publishable (Some w)) (map Item_init rows) in
  let M := max_dates w P in
  exists st' fuel0,
    (forall fuel, fuel0 <= fuel ->
       export_kobo_items SCRIPT_DIR remote fuel g cache (Some w) st =
       (Returned tt, st')) /\
    created (since st st') = omap (page_of g) P /\
    (exists c', config st' = Some c' /\
                fs st' !! config_path = Some (Yaml c') /\
                kobo2notion_delta_date c' = M) /\
    Py.gt w M = false /\
    (forall it d e, In it P -> normalized it = Some (d, e) ->
                    Py.gt d M = false /\ Py.gt e M = false) /\
    (M = w \/ exists it d e, In it P /\ normalized it = Some (d, e) /\
                             (M = d \/ M = e)).
Proof.
  intros Hf Hc Hfile Hw Hresp Hclean P M.
  destruct (export_kobo_items_runs cache rows (Some w) c st Hf Hc Hresp Hclean)
    as (st' & tr & fuel0 & Ht & Hcr & Hrun & Hend).
  fold P in Hcr, Hend.
  exists st', fuel0. split; [exact Hrun|]. split.
  { now rewrite (since_app st st' tr Ht). }
  split; [|apply max_dates_is_max].
  pose proof (newest_published w (map Item_init rows)) as Hnew.
  cbv zeta in Hnew. fold P in Hnew.
  destruct (newest None P) as [l|].
  - destruct Hend as [Hc' Hf']. destruct Hnew as (_ & -> & _).
    exists (set_delta_date c (max_dates w P)). split; [assumption|].
    split; [|reflexivity]. rewrite Hf'. apply lookup_insert_eq.
  - destruct Hend as [Hc' Hf']. exists c. rewrite Hc', Hf'.
    split; [assumption|]. split; [assumption|].
    subst M. rewrite Hnew. exact Hw.
Qed.

(** C2: the export creates one page per item that passes the filter, in
    the order of the items, and no other page; an item passes exactly when
    there is no watermark, or its normalised created date is greater than
    the watermark as a text, or its normalised modified date is. *)
Theorem filter_publishes_newer_items cache rows delta c st :
  fs st !! cache = Some (Sqlite (Some rows)) ->
  config st = Some c ->
  responsive remote ->
  Forall (runs_clean delta) (map Item_init rows) ->
  let items := map Item_init rows in
  exists st' fuel0,
    (forall fuel, fuel0 <= fuel ->
       export_kobo_items SCRIPT_DIR remote fuel g cache delta st =
       (Returned tt, st')) /\
    Forall2 (fun it p => page_of g it = Some p)
            (List.filter (publishable delta) items) (created (since st st')) /\
    (forall it, In it items ->
       exists d e, normalized it = Some (d, e) /\
         (publishable delta it = true <->
          delta = None \/
          exists w, delta = Some w /\
                    (String.ltb w d = true \/ String.ltb w e = true))).
Proof.
  intros Hf Hc Hresp Hclean items.
  destruct (export_kobo_items_runs cache rows delta c st Hf Hc Hresp Hclean)
    as (st' & tr & fuel0 & Ht & Hcr & Hrun & _).
  fold items in Hcr, Hclean.
  exists st', fuel0. split; [exact Hrun|].
  rewrite List.Forall_forall in Hclean. split.
  - rewrite (since_app st st' tr Ht), Hcr. apply omap_Forall2.
    intros it Hit. apply List.filter_In in Hit as [Hin Hp].
    destruct (Hclean it Hin) as ([t Ht'] & _ & Htxt).
    destruct (Htxt Hp) as [txt Htx]. unfold page_of. rewrite Ht', Htx. eauto.
  - intros it Hin. destruct (Hclean it Hin) as (_ & [[d e] Hn] & _).
    exists d, e. split; [assumption|].
    unfold publishable. rewrite Hn. apply is_new_spec.
Qed.

(** C7: whatever happens during the export, if it created no page then
    nothing was written: the configuration in memory is as before, and so
    are the configuration file and every other file there was. *)
Theorem no_page_no_write fuel cache delta st o st' :
  export_kobo_items SCRIPT_DIR remote fuel g cache delta st = (o, st') ->
  created (since st st') = [] ->
  is_Some (fs st !! config_path) ->
  config st' = config st /\
  fs st' !! config_path = fs st !! config_path /\
  (forall p, is_Some (fs st !! p) -> fs st' !! p = fs st !! p).
Proof.
  intros Hrun Hnil Hcfg.
  destruct (export_kobo_items_frame fuel cache delta st o st' Hrun Hnil)
    as [Hc Hf]. auto.
Qed.

(** C8: when the read of the copied database fails, [parse_database]
    raises nothing: it logs one error and returns the empty list; the
    export then returns too, without a request sent and with the
    configuration and every file there was as before. *)
Theorem unreadable_database_is_empty fuel cache delta st :
  (forall rows, fs st !! cache <> Some (Sqlite (Some rows))) ->
  (exists st1, parse_database cache st = (Returned [], st1) /\
               since st st1 = [parsing; unreadable] /\
               config st1 = config st) /\
  (exists st', export_kobo_items SCRIPT_DIR remote fuel g cache delta st =
               (Returned tt, st') /\
               since st st' = [parsing; unreadable] /\
               posts st' = posts st /\
               config st' = config st /\
               (forall p, is_Some (fs st !! p) -> fs st' !! p = fs st !! p)).
Proof.
  intros Hfail.
  destruct (parse_database_fail cache st Hfail) as (st1 & Hparse & Hc & Ht & Hf).
  split.
  - exists st1. split; [assumption|]. split; [now apply since_app | assumption].
  - exists st1. split; [|split; [now apply since_app|]].
    + unfold export_kobo_items, bind. rewrite Hparse. reflexivity.
    + destruct (parse_database_frame cache st)
        as (items & st2 & tr & Hparse' & _ & _ & _ & Hp & Hf').
      rewrite Hparse in Hparse'. injection Hparse' as _ <-. auto.
Qed.

End ExportItems.

(** ** The whole run *)

Section Main.

Context `{L : DatetimeLib}.
Variable SCRIPT_DIR : string.
Variable remote : nat -> response.

Local Abbreviation config_path := (config_path SCRIPT_DIR).
Local Abbreviation not_found :=
  (Log ERROR "Database not found, is your e-reader connected?" []).
Local Abbreviation retrieving :=
  (Log INFO "Retrieving database from e-reader" []).

Lemma copy_database_missing database_path database_cache st :
  fs st !! database_path = None ->
  exists st', copy_database database_path database_cache st = (Exited, st') /\
              grows st st' [not_found] /\ posts st' = posts st.
Proof.
  intros Hf. unfold copy_database, bind, os_path_exists, get_fs, ret. simpl.
  rewrite Hf. rewrite bool_decide_eq_false_2 by (intros [x Hx]; discriminate).
  unfold logging_error, emit, exit. simpl.
  eexists. split; [reflexivity|]. repeat split.
Qed.

Lemma copy_database_found database_path database_cache f st :
  fs st !! database_path = Some f ->
  database_path <> database_cache ->
  exists st', copy_database database_path database_cache st = (Returned tt, st') /\
              fs st' = <[database_cache := f]> (fs st) /\
              config st' = config st /\
              trace st' = trace st ++ [retrieving] /\ posts st' = posts st.
Proof.
  intros Hf Hne. unfold copy_database, bind, os_path_exists, get_fs, ret. simpl.
  rewrite Hf. rewrite bool_decide_eq_true_2 by eauto.
  unfold logging_info, emit. simpl.
  destruct (fs st !! database_cache) as [x|] eqn:Hcache.
  - rewrite bool_decide_eq_true_2 by eauto.
    unfold os_remove, shutil_copy, bind, get_fs, put_fs, raise. simpl.
    rewrite Hcache. simpl. rewrite lookup_delete_ne by congruence. rewrite Hf.
    eexists. split; [reflexivity|]. simpl.
    rewrite insert_delete_eq. auto.
  - rewrite bool_decide_eq_false_2 by (intros [y Hy]; discriminate).
    unfold shutil_copy, bind, get_fs, put_fs, raise. simpl. rewrite Hf.
    eexists. split; [reflexivity|]. simpl. auto.
Qed.

(** The start of the run, up to the copy of the database. *)
Lemma main_start fuel c w st :
  fs st !! config_path = Some (Yaml c) ->
  convert_date (configured_delta c) = Py.Ok w ->
  main SCRIPT_DIR remote fuel st =
  (copy_database (Py.path_join SCRIPT_DIR (kobo_database_path c))
                 (Py.path_join SCRIPT_DIR (kobo_database_cache c));;
   export_kobo_items SCRIPT_DIR remote fuel (globals_of c)
     (Py.path_join SCRIPT_DIR (kobo_database_cache c)) (Some w);;
   logging_info "Process finished")
    {| fs := fs st; config := Some c; trace := trace st; posts := posts st |}.
Proof.
  intros Hf Hw. unfold main. unfold bind at 1. unfold get_fs.
  unfold bind at 1. rewrite Hf. unfold ret at 1.
  unfold bind at 1. unfold put_config at 1.
  unfold bind at 1. rewrite Hw. reflexivity.
Qed.

(** C9: with no file at the configured path of the e-reader's database,
    [copy_database] logs one error, and nothing else, and exits at once
    without touching a file; so does the whole run, as soon as the
    configuration has been read: no request is sent and no file is written,
    neither the cache nor the configuration. *)
Theorem missing_source_exits fuel c w st :
  (forall database_path database_cache s,
     fs s !! database_path = None ->
     exists s', copy_database database_path database_cache s = (Exited, s') /\
                since s s' = [not_found] /\
                fs s' = fs s /\ config s' = config s /\ posts s' = posts s) /\
  (fs st !! config_path = Some (Yaml c) ->
   convert_date (configured_delta c) = Py.Ok w ->
   fs st !! Py.path_join SCRIPT_DIR (kobo_database_path c) = None ->
   exists st',
     main SCRIPT_DIR remote fuel st = (Exited, st') /\
     since st st' = [not_found] /\
     fs st' = fs st /\
     posts st' = posts st).
Proof.
  split.
  - intros database_path database_cache s Hdb.
    destruct (copy_database_missing database_path database_cache s Hdb)
      as (s' & Hcopy & (Hfs & Hc & Ht) & Hp).
    exists s'. repeat split; try assumption. now apply since_app.
  - intros Hf Hw Hdb. rewrite (main_start fuel c w st Hf Hw).
    set (st0 := {| fs := fs st; config := Some c; trace := trace st;
                   posts := posts st |}).
    destruct (copy_database_missing
                (Py.path_join SCRIPT_DIR (kobo_database_path c))
                (Py.path_join SCRIPT_DIR (kobo_database_cache c)) st0 Hdb)
      as (st' & Hcopy & (Hfs & _ & Ht) & Hp).
    exists st'. unfold bind. rewrite Hcopy.
    split; [reflexivity|]. split; [|split]; try assumption.
    apply since_app. exact Ht.
Qed.

(** A run over a mounted, readable database, clean items and a responsive
    service returns and creates the pages of the publishable items. *)
Lemma main_runs c w rows st :
  fs st !! config_path = Some (Yaml c) ->
  convert_date (configured_delta c) = Py.Ok w ->
  fs st !! Py.path_join SCRIPT_DIR (kobo_database_path c) =
    Some (Sqlite (Some rows)) ->
  Py.path_join SCRIPT_DIR (kobo_database_path c) <>
    Py.path_join SCRIPT_DIR (kobo_database_cache c) ->
  responsive remote ->
  Forall (runs_clean (Some w)) (map Item_init rows) ->
  exists st' fuel0,
    (forall fuel, fuel0 <= fuel ->
       main SCRIPT_DIR remote fuel st = (Returned tt, st')) /\
    created (since st st') =
      omap (page_of (globals_of c))
           (List.filter (publishable (Some w)) (map Item_init rows)).
Proof.
  intros Hf Hw Hdb Hne Hresp Hclean.
  set (st0 := {| fs := fs st; config := Some c; trace := trace st;
                 posts := posts st |}).
  destruct (copy_database_found _ _ _ st0 Hdb Hne)
    as (st1 & Hcopy & Hf1 & Hc1 & Ht1 & _).
  destruct (export_kobo_items_runs SCRIPT_DIR remote (globals_of c)
              (Py.path_join SCRIPT_DIR (kobo_database_cache c)) rows (Some w) c st1)
    as (st2 & tr & fuel0 & Ht2 & Hcr & Hrun & _); try assumption.
  { rewrite Hf1. apply lookup_insert_eq. }
  eexists _, fuel0. split.
  - intros fuel Hfuel. rewrite (main_start fuel c w st Hf Hw). fold st0.
    unfold bind. rewrite Hcopy, (Hrun fuel Hfuel). reflexivity.
  - erewrite since_app.
    2:{ simpl. rewrite Ht2, Ht1. simpl. rewrite <- !app_assoc. reflexivity. }
    rewrite !created_app. simpl. rewrite Hcr, app_nil_r. reflexivity.
Qed.

(** C10: in the run as deployed an empty configured watermark becomes the
    epoch text before the filter sees it; an item whose two dates are
    absent gets that same text for both and so does not pass the filter;
    hence a run from an empty watermark creates the pages of the other
    items only. *)
Theorem undated_items_are_never_published `{!DatetimeLibSpec L} :
  (forall c, Py.strip (kobo2notion_delta_date c) = "" ->
             convert_date (configured_delta c) = Py.Ok NODELTA_DATE) /\
  (forall values, DateCreated values = None -> DateModified values = None ->
     normalized (to_dict (Item_init values)) = Some (NODELTA_DATE, NODELTA_DATE) /\
     publishable (Some NODELTA_DATE) (to_dict (Item_init values)) = false) /\
  (forall c rows st,
     fs st !! config_path = Some (Yaml c) ->
     Py.strip (kobo2notion_delta_date c) = "" ->
     fs st !! Py.path_join SCRIPT_DIR (kobo_database_path c) =
       Some (Sqlite (Some rows)) ->
     Py.path_join SCRIPT_DIR (kobo_database_path c) <>
       Py.path_join SCRIPT_DIR (kobo_database_cache c) ->
     responsive remote ->
     Forall (runs_clean (Some NODELTA_DATE)) (map Item_init rows) ->
     exists st' fuel0 published,
       (forall fuel, fuel0 <= fuel ->
          main SCRIPT_DIR remote fuel st = (Returned tt, st')) /\
       created (since st st') = omap (page_of (globals_of c)) published /\
       published = List.filter (publishable (Some NODELTA_DATE))
                               (map Item_init rows) /\
       (forall values, DateCreated values = None -> DateModified values = None ->
                       ~ In (Item_init values) published)).
Proof.
  assert (Hstart : forall c, Py.strip (kobo2notion_delta_date c) = "" ->
             convert_date (configured_delta c) = Py.Ok NODELTA_DATE).
  { intros c Hc. unfold configured_delta. rewrite Hc. simpl.
    apply convert_date_NODELTA. }
  assert (Hundated : forall values,
     DateCreated values = None -> DateModified values = None ->
     normalized (to_dict (Item_init values)) = Some (NODELTA_DATE, NODELTA_DATE) /\
     publishable (Some NODELTA_DATE) (to_dict (Item_init values)) = false).
  { intros values Hc Hm.
    assert (Hn : normalized (to_dict (Item_init values)) =
                 Some (NODELTA_DATE, NODELTA_DATE)).
    { unfold normalized, to_dict, Item_init. simpl. rewrite Hc, Hm.
      now rewrite convert_date_NODELTA. }
    split; [exact Hn|]. unfold publishable. rewrite Hn. simpl.
    now rewrite gt_irrefl. }
  split; [exact Hstart|]. split; [exact Hundated|].
  intros c rows st Hf Hc Hdb Hne Hresp Hclean.
  destruct (main_runs c NODELTA_DATE rows st Hf (Hstart c Hc) Hdb Hne Hresp Hclean)
    as (st' & fuel0 & Hrun & Hcr).
  exists st', fuel0, (List.filter (publishable (Some NODELTA_DATE))
                                  (map Item_init rows)).
  split; [exact Hrun|]. split; [exact Hcr|]. split; [reflexivity|].
  intros values Hcn Hmn Hin. apply List.filter_In in Hin as [_ Hp].
  destruct (Hundated values Hcn Hmn) as [_ Hnp]. unfold to_dict in Hnp. congruence.
Qed.

End Main.

(** ** The properties on the small world *)

Module ExampleFacts.
Import Example.

Local Abbreviation cache := "/app/cache/KoboReader.sqlite".

Lemma steady_responsive : responsive steady.
Proof. intros k. exists 0. split; [intros i Hi; lia | reflexivity]. Qed.

Lemma rows_clean (w : string) :
  Forall (runs_clean (H := FixedWidth.lib) (Some w)) (map Item_init rows).
Proof.
  repeat constructor; try (eexists; reflexivity); intros _; eexists; reflexivity.
Qed.

End ExampleFacts.

Lemma watermark_is_newest_published_witness :
  exists st' fuel0,
    (forall fuel, fuel0 <= fuel ->
       export_kobo_items (H := FixedWidth.lib) "/app" Example.steady fuel Example.g
         "/app/cache/KoboReader.sqlite" (Some NODELTA_DATE)
         (Example.ready NODELTA_DATE (Some Example.rows)) = (Returned tt, st')) /\
    exists c', config st' = Some c' /\
               kobo2notion_delta_date c' = "2023-06-01 00:00:00".
Proof.
  destruct (watermark_is_newest_published (L := FixedWidth.lib) "/app"
              Example.steady Example.g "/app/cache/KoboReader.sqlite" Example.rows
              (Example.cfg NODELTA_DATE) NODELTA_DATE
              (Example.ready NODELTA_DATE (Some Example.rows))
              eq_refl eq_refl eq_refl eq_refl ExampleFacts.steady_responsive
              (ExampleFacts.rows_clean NODELTA_DATE))
    as (st' & fuel0 & Hrun & _ & (c' & Hc & _ & Hw) & _).
  exists st', fuel0. split; [exact Hrun|]. exists c'. split; [exact Hc|].
  rewrite Hw. vm_compute. reflexivity.
Defined.

Lemma filter_publishes_newer_items_witness :
  exists st' fuel0,
    (forall fuel, fuel0 <= fuel ->
       export_kobo_items (H := FixedWidth.lib) "/app" Example.steady fuel Example.g
         "/app/cache/KoboReader.sqlite" (Some "2023-06-01 00:00:00")
         (Example.ready "2023-06-01 00:00:00" (Some Example.rows)) =
       (Returned tt, st')) /\
    created (since (Example.ready "2023-06-01 00:00:00" (Some Example.rows)) st') = [].
Proof.
  destruct (filter_publishes_newer_items (L := FixedWidth.lib) "/app"
              Example.steady Example.g "/app/cache/KoboReader.sqlite" Example.rows
              (Some "2023-06-01 00:00:00") (Example.cfg "2023-06-01 00:00:00")
              (Example.ready "2023-06-01 00:00:00" (Some Example.rows))
              eq_refl eq_refl ExampleFacts.steady_responsive
              (ExampleFacts.rows_clean "2023-06-01 00:00:00"))
    as (st' & fuel0 & Hrun & Hpages & _).
  exists st', fuel0. split; [exact Hrun|].
  vm_compute in Hpages. now inversion Hpages.
Defined.

Lemma no_page_no_write_witness :
  let st := Example.ready "2023-06-01 00:00:00" (Some Example.rows) in
  let run := export_kobo_items (H := FixedWidth.lib) "/app" Example.steady 1 Example.g
               "/app/cache/KoboReader.sqlite" (Some "2023-06-01 00:00:00") st in
  config (snd run) = config st /\
  fs (snd run) !! config_path "/app" = fs st !! config_path "/app" /\
  (forall p, is_Some (fs st !! p) -> fs (snd run) !! p = fs st !! p).
Proof.
  intros st run.
  apply (no_page_no_write (L := FixedWidth.lib) "/app" Example.steady Example.g 1
           "/app/cache/KoboReader.sqlite" (Some "2023-06-01 00:00:00") st
           (fst run) (snd run)).
  - apply surjective_pairing.
  - vm_compute. reflexivity.
  - vm_compute. eauto.
Defined.

Lemma unreadable_database_is_empty_witness :
  exists st',
    export_kobo_items (H := FixedWidth.lib) "/app" Example.steady 0 Example.g
      "/app/cache/KoboReader.sqlite" (Some "2023-06-01 00:00:00")
      (Example.ready "2023-06-01 00:00:00" None) = (Returned tt, st') /\
    config st' = config (Example.ready "2023-06-01 00:00:00" None).
Proof.
  destruct (unreadable_database_is_empty (L := FixedWidth.lib) "/app" Example.steady
              Example.g 0 "/app/cache/KoboReader.sqlite"
              (Some "2023-06-01 00:00:00")
              (Example.ready "2023-06-01 00:00:00" None))
    as [_ (st' & Hrun & _ & _ & Hc & _)].
  - intros rows. vm_compute. discriminate.
  - exists st'. split; assumption.
Defined.

Lemma missing_source_exits_witness :
  exists st',
    main (H := FixedWidth.lib) "/app" Example.steady 1
         (Example.world "2023-06-01 00:00:00" false) = (Exited, st') /\
    since (Example.world "2023-06-01 00:00:00" false) st' =
      [Log ERROR "Database not found, is your e-reader connected?" []] /\
    fs st' = fs (Example.world "2023-06-01 00:00:00" false) /\
    posts st' = posts (Example.world "2023-06-01 00:00:00" false).
Proof.
  apply (proj2 (missing_source_exits (L := FixedWidth.lib) "/app" Example.steady 1
           (Example.cfg "2023-06-01 00:00:00") "2023-06-01 00:00:00"
           (Example.world "2023-06-01 00:00:00" false)));
    vm_compute; reflexivity.
Defined.

Lemma undated_items_are_never_published_witness :
  exists st' fuel0 published,
    (forall fuel, fuel0 <= fuel ->
       main (H := FixedWidth.lib) "/app" Example.steady fuel (Example.world "" true) =
       (Returned tt, st')) /\
    created (since (Example.world "" true) st') =
      omap (page_of (globals_of (Example.cfg ""))) published /\
    ~ In (Item_init (Example.row "undated" None None)) published.
Proof.
  destruct (proj2 (proj2 (@undated_items_are_never_published FixedWidth.lib "/app"
              Example.steady FixedWidthFacts.lib_spec))
              (Example.cfg "") Example.rows (Example.world "" true))
    as (st' & fuel0 & published & Hrun & Hcr & _ & Hun).
  - vm_compute. reflexivity.
  - reflexivity.
  - vm_compute. reflexivity.
  - vm_compute. discriminate.
  - exact ExampleFacts.steady_responsive.
  - exact (ExampleFacts.rows_clean NODELTA_DATE).
  - exists st', fuel0, published. split; [exact Hrun|]. split; [exact Hcr|].
    apply Hun; reflexivity.
Defined.

(** ** The scenarios, run *)

(** From the empty watermark, the two dated items of the example are
    published and the newest date is written back. *)
Example first_run_publishes_the_dated_items :
  let run := main (H := FixedWidth.lib) "/app" Example.steady 1
                  (Example.world "" true) in
  fst run = Returned tt /\
  map properties_title (created (trace (snd run))) =
    [["Highlight: Chapter"]; ["Highlight: Chapter"]] /\
  map (fun d => map rich_text (children d)) (created (trace (snd run))) =
    [[[ {| content := "first"; text_annotations := None |} ];
      [ {| content := "Source: Chapter, Author";
           text_annotations := Some {| italic := true |} |} ]];
     [[ {| content := "second"; text_annotations := None |} ];
      [ {| content := "Source: Chapter, Author";
           text_annotations := Some {| italic := true |} |} ]]] /\
  config (snd run) = Some (Example.cfg "2023-06-01 00:00:00") /\
  fs (snd run) !! "/app/config.yaml" = Some (Yaml (Example.cfg "2023-06-01 00:00:00")).
Proof. vm_compute. repeat split. Qed.

(** A date equal to the watermark is not greater: nothing is published and
    the configuration stays as it was. *)
Example equal_date_is_not_published :
  let run := main (H := FixedWidth.lib) "/app" Example.steady 1
                  (Example.world "2023-06-01 00:00:00" true) in
  fst run = Returned tt /\
  sent (trace (snd run)) = [] /\
  fs (snd run) !! "/app/config.yaml" = Some (Yaml (Example.cfg "2023-06-01 00:00:00")).
Proof. vm_compute. repeat split. Qed.

(** Answers 429, 429, 200: two error lines, two sleeps, one success line. *)
Example two_refusals_then_success :
  let run := create_notion_page Example.flaky 3 Example.g "page-1"
               "Highlight: Chapter" (Some "first") "Source: Chapter, Author"
               (Example.ready "" (Some Example.rows)) in
  fst run = Returned tt /\
  map (fun e => match e with
                | Log l m _ => Some (l, m)
                | Sleep n => Some (INFO, Py.cat "sleep " (Py.str_of_nat n))
                | Post _ _ _ _ => None
                end) (trace (snd run)) =
    [None; Some (ERROR, "429: rate limited"); Some (INFO, "Retrying in 1 minute");
     Some (INFO, "sleep 60");
     None; Some (ERROR, "429: rate limited"); Some (INFO, "Retrying in 1 minute");
     Some (INFO, "sleep 60");
     None; Some (INFO, Py.cat "Created " (Py.cat dquote
                         (Py.cat "Highlight: Chapter" dquote)))].
Proof. vm_compute. repeat split. Qed.

(** With the iterations used up on refusals the loop has not returned. *)
Example still_retrying :
  fst (create_notion_page Example.flaky 2 Example.g "page-1" "Highlight: Chapter"
         (Some "first") "Source: Chapter, Author"
         (Example.ready "" (Some Example.rows))) = Unfinished.
Proof. reflexivity. Qed.

(** * Further properties of the script *)

(** ** The colours of the log *)

Section Colours.

Import ColorFormatter.

Lemma shown_plain (s tail : string) :
  plain s = true -> shown false (Py.cat s tail) = Py.cat s (shown false tail).
Proof.
  induction s as [|c s IH]; simpl; [reflexivity|].
  intros Hp. apply andb_true_iff in Hp as [Hc Hs].
  apply negb_true_iff in Hc. rewrite Hc. f_equal. now apply IH.
Qed.

Lemma cat_empty_r (s : string) : Py.cat s "" = s.
Proof. induction s as [|c s IH]; simpl; [reflexivity | now rewrite IH]. Qed.

(** X1: whatever the level of the record, a terminal shows the message of
    the library's formatter and nothing else: the colour put before it and
    the reset put after it are complete escape sequences. Records of a
    level other than INFO and ERROR are not changed at all. *)
Theorem format_shows_the_message (super_format : LogRecord -> string)
    (record : LogRecord) :
  plain (super_format record) = true ->
  shown false (format super_format record) = super_format record /\
  (levelno record <> logging_INFO -> levelno record <> logging_ERROR ->
   format super_format record = super_format record).
Proof.
  intros Hp. unfold format, FORMATS.
  destruct (decide (levelno record = logging_INFO)) as [-> | Hi].
  - rewrite lookup_insert_eq. simpl. split; [|congruence].
    rewrite shown_plain by assumption. simpl. apply cat_empty_r.
  - rewrite lookup_insert_ne by congruence.
    destruct (decide (levelno record = logging_ERROR)) as [-> | He].
    + rewrite lookup_insert_eq. simpl. split; [|congruence].
      rewrite shown_plain by assumption. simpl. apply cat_empty_r.
    + rewrite lookup_insert_ne by congruence. rewrite lookup_empty. simpl.
      rewrite cat_empty_r. split; [|reflexivity].
      rewrite <- (cat_empty_r (super_format record)) at 1.
      rewrite shown_plain by assumption. simpl. apply cat_empty_r.
Qed.

End Colours.

Lemma format_shows_the_message_witness :
  shown false (ColorFormatter.format ColorFormatter.message
                 {| ColorFormatter.levelno := 40;
                    ColorFormatter.message := "404: not found" |}) =
  "404: not found".
Proof.
  apply (proj1 (format_shows_the_message ColorFormatter.message
                  {| ColorFormatter.levelno := 40;
                     ColorFormatter.message := "404: not found" |} eq_refl)).
Defined.

(** ** Dates written and read back *)

Section WrittenDates.

Context `{L : DatetimeLib} `{!DatetimeLibSpec L}.

Lemma is_space_digit (n : N) : Py.is_space (digit n) = false.
Proof.
  unfold Py.is_space.
  assert (Hn : nat_of_ascii (digit n) = 48 + N.to_nat (n mod 10)).
  { unfold nat_of_ascii. rewrite N_of_digit, N2Nat.inj_add. reflexivity. }
  rewrite Hn.
  destruct (N.to_nat (n mod 10)) as [|[|[|[|[|[|[|[|[|[|k]]]]]]]]]]; reflexivity.
Qed.

Lemma rstrip_ends_nonspace (s : string) :
  ends_nonspace s = true -> Py.rstrip s = s.
Proof.
  induction s as [|c s IH]; [discriminate|].
  destruct s as [|c' s].
  - simpl. intros Hc. apply negb_true_iff in Hc. now rewrite Hc.
  - intros He. change (ends_nonspace (String c' s) = true) in He.
    change (Py.rstrip (String c (String c' s))) with
      (match Py.rstrip (String c' s) with
       | EmptyString => if Py.is_space c then EmptyString else String c EmptyString
       | r => String c r
       end).
    now rewrite (IH He).
Qed.

Lemma strip_strftime (d : datetime) : Py.strip (strftime d) = strftime d.
Proof.
  unfold Py.strip.
  assert (Hl : Py.lstrip (strftime d) = strftime d).
  { unfold strftime, year_text, pad4, pad2.
    destruct (year d <? 10)%N; [|destruct (year d <? 100)%N;
      [|destruct (year d <? 1000)%N]];
      cbn [Py.cat Py.lstrip]; now rewrite is_space_digit. }
  rewrite Hl. apply rstrip_ends_nonspace.
  unfold strftime, year_text, pad4, pad2.
  destruct (year d <? 10)%N; [|destruct (year d <? 100)%N;
    [|destruct (year d <? 1000)%N]];
    cbn [Py.cat ends_nonspace]; now rewrite is_space_digit.
Qed.

(** A text of the canonical shape that the normaliser returned is the text
    of a valid date whose year has four digits. *)
Lemma canonical_output (date_str out : string) :
  convert_date date_str = Py.Ok out -> is_canonical out = true ->
  exists d, valid_datetime d = true /\ (1000 <= year d)%N /\ out = strftime d.
Proof.
  intros Hc Hs. apply convert_date_valid in Hc as (d & Hv & ->).
  exists d. split; [assumption|]. split; [now apply canonical_year | reflexivity].
Qed.

(** X2: on the texts of the shape YYYY-MM-DD HH:MM:SS normalising is
    idempotent: such a text, once returned by the normaliser, is returned
    unchanged when it is normalised again. *)
Theorem convert_date_idempotent (date_str out : string) :
  convert_date date_str = Py.Ok out -> is_canonical out = true ->
  convert_date out = Py.Ok out.
Proof.
  intros Hc Hs. apply (canonical_output _ _ Hc) in Hs as (d & Hv & Hk & ->).
  now apply convert_date_strftime.
Qed.

Lemma configured_delta_stored (c : Config) (date_str out : string) :
  convert_date date_str = Py.Ok out -> is_canonical out = true ->
  configured_delta (set_delta_date c out) = out /\
  convert_date (configured_delta (set_delta_date c out)) = Py.Ok out.
Proof.
  intros Hc Hs. apply (canonical_output _ _ Hc) in Hs as (d & Hv & Hk & ->).
  assert (Hcfg : configured_delta (set_delta_date c (strftime d)) = strftime d).
  { unfold configured_delta, set_delta_date. simpl. rewrite strip_strftime.
    pose proof (strftime_truthy d) as Ht.
    destruct (strftime d); [discriminate | reflexivity]. }
  rewrite Hcfg. split; [reflexivity|]. now apply convert_date_strftime.
Qed.

(** X3: the watermark survives the round trip through the configuration:
    a date of the shape YYYY-MM-DD HH:MM:SS that the normaliser returned,
    once stored as [delta_date], is what the start of the next run computes
    as its watermark, unchanged by the strip, by the test for the empty
    text and by the normaliser. *)
Theorem stored_watermark_is_read_back (c : Config) (date_str out : string) :
  convert_date date_str = Py.Ok out -> is_canonical out = true ->
  configured_delta (set_delta_date c out) = out /\
  convert_date (configured_delta (set_delta_date c out)) = Py.Ok out.
Proof. apply configured_delta_stored. Qed.

(** X4: the dates of an item built from a row are never missing: a NULL
    column stands for the epoch text, which normalises to itself; whatever
    the two dates normalise to is not empty and is the text of a valid
    date, of the shape YYYY-MM-DD HH:MM:SS exactly when the year of that
    date has four digits. *)
Theorem item_dates_are_never_empty (values : Row) (c m : string) :
  normalized (to_dict (Item_init values)) = Some (c, m) ->
  (exists dc dm,
     valid_datetime dc = true /\ valid_datetime dm = true /\
     c = strftime dc /\ m = strftime dm /\
     (is_canonical c = true <-> (1000 <= year dc)%N) /\
     (is_canonical m = true <-> (1000 <= year dm)%N)) /\
  Py.truthy c = true /\ Py.truthy m = true /\
  (DateCreated values = None -> c = NODELTA_DATE) /\
  (DateModified values = None -> m = NODELTA_DATE).
Proof.
  unfold normalized, to_dict, Item_init. simpl.
  destruct (convert_date (match DateCreated values with
                          | Some v => v | None => NODELTA_DATE end))
    as [c'|] eqn:Hc; [|discriminate].
  destruct (convert_date (match DateModified values with
                          | Some v => v | None => NODELTA_DATE end))
    as [m'|] eqn:Hm; [|discriminate].
  intros [= <- <-]. split; [|split; [|split; [|split]]].
  - destruct (convert_date_valid _ _ Hc) as (dc & Hvc & ->).
    destruct (convert_date_valid _ _ Hm) as (dm & Hvm & ->).
    exists dc, dm. repeat split; try assumption;
      (apply canonical_year || apply strftime_canonical).
  - eapply convert_date_truthy; eassumption.
  - eapply convert_date_truthy; eassumption.
  - intros Hn. rewrite Hn, convert_date_NODELTA in Hc. congruence.
  - intros Hn. rewrite Hn, convert_date_NODELTA in Hm. congruence.
Qed.

End WrittenDates.

Lemma convert_date_idempotent_witness :
  convert_date (H := FixedWidth.lib) "2023-06-01 10:20:30" = Py.Ok "2023-06-01 10:20:30".
Proof.
  apply (@convert_date_idempotent FixedWidth.lib FixedWidthFacts.lib_spec
           "2023-06-01T10:20:30Z" "2023-06-01 10:20:30" eq_refl eq_refl).
Defined.

Lemma stored_watermark_is_read_back_witness :
  configured_delta (set_delta_date (Example.cfg "") "2023-06-01 10:20:30") =
    "2023-06-01 10:20:30" /\
  convert_date (H := FixedWidth.lib)
    (configured_delta (set_delta_date (Example.cfg "") "2023-06-01 10:20:30")) =
    Py.Ok "2023-06-01 10:20:30".
Proof.
  apply (@stored_watermark_is_read_back FixedWidth.lib FixedWidthFacts.lib_spec
           (Example.cfg "") "2023-06-01T10:20:30Z" "2023-06-01 10:20:30"
           eq_refl eq_refl).
Defined.

Lemma item_dates_are_never_empty_witness :
  Py.truthy "2023-06-01 00:00:00" = true /\ Py.truthy NODELTA_DATE = true /\
  (DateCreated (Example.row "second" (Some "2023-06-01T00:00:00Z") None) = None ->
   "2023-06-01 00:00:00" = NODELTA_DATE) /\
  (DateModified (Example.row "second" (Some "2023-06-01T00:00:00Z") None) = None ->
   NODELTA_DATE = NODELTA_DATE).
Proof.
  apply (proj2 (@item_dates_are_never_empty FixedWidth.lib FixedWidthFacts.lib_spec
           (Example.row "second" (Some "2023-06-01T00:00:00Z") None)
           "2023-06-01 00:00:00" NODELTA_DATE eq_refl)).
Defined.

(** ** Copying the database *)

Section Copy.

Local Abbreviation retrieving :=
  (Log INFO "Retrieving database from e-reader" []).

(** X5: when the e-reader's file is there and the cache is another path,
    the copy returns with the cache holding what the e-reader's file holds,
    whatever the cache held before; every other file, the e-reader's among
    them, and [config] are as before, and one line is logged. *)
Theorem copy_database_copies database_path database_cache f st :
  fs st !! database_path = Some f ->
  database_path <> database_cache ->
  exists st',
    copy_database database_path database_cache st = (Returned tt, st') /\
    fs st' !! database_cache = Some f /\
    (forall p, p <> database_cache -> fs st' !! p = fs st !! p) /\
    config st' = config st /\
    since st st' = [retrieving].
Proof.
  intros Hf Hne.
  destruct (copy_database_found database_path database_cache f st Hf Hne)
    as (st' & Hrun & Hfs & Hc & Ht & _).
  exists st'. split; [assumption|]. rewrite Hfs. split; [apply lookup_insert_eq|].
  split; [|split; [assumption | now apply since_app]].
  intros p Hp. now rewrite lookup_insert_ne.
Qed.

(** X6: when the cache is configured to be the e-reader's own file, the
    copy deletes that file and then fails on the copy: the file is lost and
    the run ends with an exception. *)
Theorem copy_database_onto_itself path f st :
  fs st !! path = Some f ->
  exists st',
    copy_database path path st = (Raised Py.OSError, st') /\
    fs st' !! path = None /\
    (forall p, p <> path -> fs st' !! p = fs st !! p) /\
    since st st' = [retrieving].
Proof.
  intros Hf. unfold copy_database, bind, os_path_exists, get_fs, ret. simpl.
  rewrite Hf. rewrite bool_decide_eq_true_2 by eauto.
  unfold logging_info, emit. simpl. rewrite Hf.
  rewrite bool_decide_eq_true_2 by eauto.
  unfold os_remove, shutil_copy, bind, get_fs, put_fs, raise. simpl.
  rewrite Hf. simpl. rewrite lookup_delete_eq.
  eexists. split; [reflexivity|]. simpl. split; [apply lookup_delete_eq|].
  split; [|now apply since_app].
  intros p Hp. now rewrite lookup_delete_ne.
Qed.

(** Whatever happens, the copy writes no path but the cache and leaves
    [config] alone. *)
Lemma copy_database_frame database_path database_cache st o st' :
  copy_database database_path database_cache st = (o, st') ->
  (forall p, p <> database_cache -> fs st' !! p = fs st !! p) /\
  config st' = config st /\ exists tr, trace st' = trace st ++ tr /\ sent tr = [].
Proof.
  unfold copy_database, bind, os_path_exists, get_fs, ret. simpl.
  destruct (fs st !! database_path) as [f|] eqn:Hf.
  - rewrite bool_decide_eq_true_2 by eauto.
    unfold logging_info, emit. simpl.
    destruct (fs st !! database_cache) as [x|] eqn:Hcache.
    + rewrite bool_decide_eq_true_2 by eauto.
      unfold os_remove, shutil_copy, bind, get_fs, put_fs, raise. simpl.
      rewrite Hcache. simpl.
      destruct (delete database_cache (fs st) !! database_path) as [y|] eqn:Hd;
        intros [= <- <-]; simpl; (split; [|split; [reflexivity | eauto]]);
        intros p Hp; rewrite ?lookup_insert_ne by congruence;
        now rewrite lookup_delete_ne by congruence.
    + rewrite bool_decide_eq_false_2 by (intros [y Hy]; discriminate).
      unfold shutil_copy, bind, get_fs, put_fs, raise. simpl. rewrite Hf.
      intros [= <- <-]; simpl. split; [|split; [reflexivity | eauto]].
      intros p Hp. now rewrite lookup_insert_ne by congruence.
  - rewrite bool_decide_eq_false_2 by (intros [y Hy]; discriminate).
    unfold logging_error, emit, exit. simpl.
    intros [= <- <-]; simpl. split; [auto|]. split; [reflexivity | eauto].
Qed.

End Copy.

Lemma copy_database_copies_witness :
  exists st',
    copy_database "/mnt/kobo/KoboReader.sqlite" "/app/cache/KoboReader.sqlite"
      (Example.world "" true) = (Returned tt, st') /\
    fs st' !! "/app/cache/KoboReader.sqlite" = Some (Sqlite (Some Example.rows)).
Proof.
  destruct (copy_database_copies "/mnt/kobo/KoboReader.sqlite"
              "/app/cache/KoboReader.sqlite" (Sqlite (Some Example.rows))
              (Example.world "" true) eq_refl ltac:(discriminate))
    as (st' & Hrun & Hc & _).
  exists st'. split; assumption.
Defined.

Lemma copy_database_onto_itself_witness :
  exists st',
    copy_database "/mnt/kobo/KoboReader.sqlite" "/mnt/kobo/KoboReader.sqlite"
      (Example.world "" true) = (Raised Py.OSError, st') /\
    fs st' !! "/mnt/kobo/KoboReader.sqlite" = None.
Proof.
  destruct (copy_database_onto_itself "/mnt/kobo/KoboReader.sqlite"
              (Sqlite (Some Example.rows)) (Example.world "" true) eq_refl)
    as (st' & Hrun & Hc & _).
  exists st'. split; assumption.
Defined.

(** ** More on the publisher *)

Section PublisherMore.

Variable remote : nat -> response.
Variable g : Globals.

(** X7: the request has one block per started stretch of 2000 characters
    of the body, plus the attribution: an empty body gives the attribution
    alone, a body of at most 2000 characters one block holding all of it. *)
Theorem request_children_count
    (parent_page_id title_content T source_content : string) :
  let data := request_data g parent_page_id title_content T source_content in
  length (children data) = (String.length T + 1999) / 2000 + 1 /\
  (T = "" -> children data = [source_paragraph source_content]) /\
  (1 <= String.length T <= 2000 ->
   children data = [paragraph T; source_paragraph source_content]).
Proof.
  cbv zeta. unfold request_data. simpl. split; [|split].
  - rewrite length_app, length_map, content_blocks_length. reflexivity.
  - intros ->. reflexivity.
  - intros HT. rewrite content_blocks_eq.
    assert (Hn : (String.length T + 1999) / 2000 = 1).
    { pose proof (Nat.div_mod_eq (String.length T + 1999) 2000).
      pose proof (Nat.mod_upper_bound (String.length T + 1999) 2000). lia. }
    rewrite Hn. simpl. do 2 f_equal.
    rewrite <- (take_sdrop 2000 T) at 2.
    assert (Hd : sdrop 2000 T = "").
    { apply length_empty. rewrite length_sdrop. lia. }
    rewrite Hd. clear. induction (substring 0 2000 T) as [|c s IH]; simpl; congruence.
Qed.

Lemma slept_app (tr1 tr2 : list event) : slept (tr1 ++ tr2) = slept tr1 + slept tr2.
Proof.
  induction tr1 as [|e tr1 IH]; simpl; [reflexivity|].
  destruct e; rewrite IH; lia.
Qed.

Lemma slept_failures data (l : list nat) k :
  slept (flat_map (fun i => failed_attempt g data (remote (k + i))) l) =
  60 * length l.
Proof. induction l as [|i l IH]; simpl; [reflexivity | rewrite IH; lia]. Qed.

(** X8: when the first answer 200 is the one to attempt number n + 1, the
    publisher sends n + 1 requests, sleeps 60 n seconds in all, and touches
    neither a file nor [config]. *)
Theorem publisher_cost (n fuel : nat)
    (parent_page_id title_content main_content source_content : string)
    (st : state) :
  first_ok remote (posts st) n -> n < fuel ->
  exists st',
    create_notion_page remote fuel g parent_page_id title_content
      (Some main_content) source_content st = (Returned tt, st') /\
    length (sent (since st st')) = n + 1 /\
    posts st' = posts st + n + 1 /\
    slept (since st st') = 60 * n /\
    fs st' = fs st /\ config st' = config st.
Proof.
  intros Hok Hlt. unfold create_notion_page.
  rewrite (post_until_created_returns remote g n fuel _ _ _ Hok Hlt).
  eexists. split; [reflexivity|].
  erewrite since_app by (simpl; rewrite <- app_assoc; reflexivity).
  rewrite sent_app, slept_app, length_app, slept_failures, length_seq. simpl.
  repeat split; try lia.
  assert (Hs : forall l : list nat,
    length (sent (flat_map (fun i => failed_attempt g
       (request_data g parent_page_id title_content main_content source_content)
       (remote (posts st + i))) l)) = length l).
  { induction l as [|i l IH]; simpl; [reflexivity | now rewrite IH]. }
  rewrite Hs, length_seq. reflexivity.
Qed.

End PublisherMore.

Lemma request_children_count_witness :
  children (request_data Example.g "page-1" "Highlight: Chapter" "first"
              "Source: Chapter, Author") =
  [paragraph "first"; source_paragraph "Source: Chapter, Author"].
Proof.
  apply (proj2 (proj2 (request_children_count Example.g "page-1"
           "Highlight: Chapter" "first" "Source: Chapter, Author"))).
  simpl. lia.
Defined.

Lemma publisher_cost_witness :
  exists st',
    create_notion_page Example.flaky 3 Example.g "page-1" "Highlight: Chapter"
      (Some "first") "Source: Chapter, Author" (Example.ready "" (Some Example.rows)) =
      (Returned tt, st') /\
    length (sent (since (Example.ready "" (Some Example.rows)) st')) = 3 /\
    slept (since (Example.ready "" (Some Example.rows)) st') = 120.
Proof.
  destruct (publisher_cost Example.flaky Example.g 2 3 "page-1" "Highlight: Chapter"
              "first" "Source: Chapter, Author" (Example.ready "" (Some Example.rows)))
    as (st' & Hrun & Hn & _ & Hs & _).
  - split; [|reflexivity]. intros i Hi. destruct i as [|[|i]]; [discriminate.. | lia].
  - lia.
  - exists st'. split; [assumption|]. split; assumption.
Defined.

(** ** More on the export *)

Section ExportMore.

Context `{L : DatetimeLib}.
Variable SCRIPT_DIR : string.
Variable remote : nat -> response.
Variable g : Globals.

Local Abbreviation config_path := (config_path SCRIPT_DIR).
Local Abbreviation parsing := (Log INFO "Parsing database" []).

(** The read changes no path but, at most, the cache. *)
Lemma parse_database_writes cache st :
  exists items st1 tr,
    parse_database cache st = (Returned items, st1) /\
    config st1 = config st /\ trace st1 = trace st ++ tr /\ sent tr = [] /\
    (forall p, p <> cache \/ is_Some (fs st !! p) -> fs st1 !! p = fs st !! p).
Proof.
  unfold parse_database, bind, logging_info, logging_error, emit,
    get_fs, put_fs, ret. simpl.
  destruct (fs st !! cache) as [[[rows|]|c|s]|] eqn:E; simpl;
    do 3 eexists; (split; [reflexivity|]); simpl; rewrite <- ?app_assoc;
    repeat split; auto.
  intros p [Hp | [x Hp]]; rewrite lookup_insert_ne; congruence.
Qed.

Lemma sent_created_nil (tr : list event) : sent tr = [] -> created tr = [].
Proof.
  induction tr as [|e tr IH]; [reflexivity|].
  destruct e; simpl; try exact IH. discriminate.
Qed.

(** What the three steps of the export can have done, whatever the outcome. *)
Lemma export_kobo_items_writes fuel cache delta st o st' :
  export_kobo_items SCRIPT_DIR remote fuel g cache delta st = (o, st') ->
  (forall p, p <> config_path -> p <> cache \/ is_Some (fs st !! p) ->
             fs st' !! p = fs st !! p) /\
  (o <> Returned tt ->
   config st' = config st /\
   (forall p, is_Some (fs st !! p) -> fs st' !! p = fs st !! p)).
Proof.
  unfold export_kobo_items, bind.
  destruct (parse_database_writes cache st)
    as (items & st1 & tr1 & -> & Hc1 & Ht1 & _ & Hf1).
  destruct (export_loop _ _ _ _ _ _ _) as [o2 st2] eqn:Hloop.
  apply export_loop_frame in Hloop as (tr2 & (Hf2 & Hc2 & Ht2) & _).
  assert (Hkeep : (forall p, p <> cache \/ is_Some (fs st !! p) ->
                             fs st2 !! p = fs st !! p) /\ config st2 = config st).
  { split; [|congruence]. intros p Hp. rewrite Hf2. now apply Hf1. }
  destruct Hkeep as [Hfs Hcfg].
  destruct o2 as [l| | |];
    try (intros [= <- <-]; split; [auto | intros _; split; auto]).
  unfold persist, bind, get_config, put_config, get_fs, put_fs, ret.
  destruct l as [x|]; [|intros [= <- <-]; split; [auto | congruence]].
  destruct (Py.truthy x); [|intros [= <- <-]; split; [auto | congruence]].
  destruct (config st2) as [c|] eqn:Hc; simpl.
  - intros [= <- <-]. simpl. split; [|congruence].
    intros p Hp Hq. rewrite lookup_insert_ne by congruence. auto.
  - intros [= <- <-]. split; [auto|]. intros _. split; [congruence | auto].
Qed.


Lemma export_loop_skips (remote' : nat -> response) fuel delta items latest st :
  Forall (fun it => runs_clean delta it /\ publishable delta it = false) items ->
  export_loop remote' fuel g delta items latest st = (Returned latest, st).
Proof.
  induction 1 as [|it items [Hc Hp] _ IH]; [reflexivity|].
  simpl. unfold bind. rewrite export_item_skip by assumption. exact IH.
Qed.

(** No item passes the filter for the largest date of a run. *)
Lemma nothing_newer_than_max (w : string) (items : list Item) :
  let M := max_dates w (List.filter (publishable (Some w)) items) in
  Forall (fun it => publishable (Some M) it = false) items.
Proof.
  intros M. apply List.Forall_forall. intros it Hin.
  unfold publishable at 1.
  destruct (normalized it) as [[c m]|] eqn:Hn; [|reflexivity].
  destruct (max_dates_is_max w (List.filter (publishable (Some w)) items))
    as (Hw & Hub & _). fold M in Hw, Hub.
  simpl. apply orb_false_iff.
  destruct (publishable (Some w) it) eqn:Hp.
  - apply (Hub it c m); [|assumption]. apply List.filter_In. auto.
  - unfold publishable in Hp. rewrite Hn in Hp. simpl in Hp.
    apply orb_false_iff in Hp as [Hc Hm].
    split; eapply le_trans; eassumption.
Qed.

(** X10: running the export again with the watermark the first run arrived
    at publishes nothing: over the same rows the second run returns, for any
    bound on the retries and any service, without a request sent and with
    [config] and the files as the first run left them. *)
Theorem second_export_publishes_nothing cache rows c w st :
  fs st !! cache = Some (Sqlite (Some rows)) ->
  config st = Some c ->
  fs st !! config_path = Some (Yaml c) ->
  responsive remote ->
  Forall (runs_clean (Some w)) (map Item_init rows) ->
  let M := max_dates w (List.filter (publishable (Some w)) (map Item_init rows)) in
  exists st' fuel0,
    (forall fuel, fuel0 <= fuel ->
       export_kobo_items SCRIPT_DIR remote fuel g cache (Some w) st =
       (Returned tt, st')) /\
    forall remote' fuel',
      exists st'',
        export_kobo_items SCRIPT_DIR remote' fuel' g cache (Some M) st' =
        (Returned tt, st'') /\
        since st' st'' = [parsing] /\
        config st'' = config st' /\ fs st'' = fs st'.
Proof.
  intros Hf Hc Hfile Hresp Hclean M.
  destruct (export_kobo_items_runs SCRIPT_DIR remote g cache rows (Some w) c st
              Hf Hc Hresp Hclean) as (st' & tr & fuel0 & Ht & Hcr & Hrun & Hend).
  exists st', fuel0. split; [exact Hrun|].
  intros remote' fuel'.
  assert (Hne : cache <> config_path) by congruence.
  assert (Hf' : fs st' !! cache = Some (Sqlite (Some rows))).
  { destruct (newest None _) in Hend; destruct Hend as [_ ->]; [|assumption].
    now rewrite lookup_insert_ne by congruence. }
  destruct (parse_database_ok cache rows st' Hf') as (st1 & Hparse & Hf1 & Hc1 & Ht1).
  exists st1. unfold export_kobo_items, bind. rewrite Hparse.
  rewrite export_loop_skips.
  - split; [reflexivity|]. split; [now apply since_app | auto].
  - pose proof (nothing_newer_than_max w (map Item_init rows)) as Hnone.
    cbv zeta in Hnone. fold M in Hnone.
    rewrite List.Forall_forall in Hclean, Hnone. apply List.Forall_forall.
    intros it Hin. split; [|now apply Hnone].
    destruct (Hclean it Hin) as (Hty & Hnorm & _).
    split; [assumption|]. split; [assumption|].
    rewrite (Hnone it Hin). discriminate.
Qed.

Lemma publishable_None (it : Item) :
  is_Some (normalized it) -> publishable None it = true.
Proof. intros [[c m] Hn]. unfold publishable. now rewrite Hn. Qed.

Lemma filter_all {A} (p : A -> bool) (l : list A) :
  Forall (fun x => p x = true) l -> List.filter p l = l.
Proof.
  induction 1 as [|x l Hx _ IH]; simpl; [reflexivity|]. now rewrite Hx, IH.
Qed.

(** X11: without a watermark ([delta_date] is [None]) every item is
    published, in the order of the rows, and, if there is any row, the
    watermark written is the largest of all their dates: no date of a row is
    greater and it is the date of one of them. *)
Theorem no_watermark_publishes_all cache rows c st :
  fs st !! cache = Some (Sqlite (Some rows)) ->
  config st = Some c ->
  responsive remote ->
  Forall (runs_clean None) (map Item_init rows) ->
  exists st' fuel0,
    (forall fuel, fuel0 <= fuel ->
       export_kobo_items SCRIPT_DIR remote fuel g cache None st =
       (Returned tt, st')) /\
    Forall2 (fun it p => page_of g it = Some p)
            (map Item_init rows) (created (since st st')) /\
    (rows = [] -> config st' = config st /\ fs st' = fs st) /\
    (rows <> [] ->
     exists M, config st' = Some (set_delta_date c M) /\
       fs st' !! config_path = Some (Yaml (set_delta_date c M)) /\
       (forall it d e, In it (map Item_init rows) -> normalized it = Some (d, e) ->
                       Py.gt d M = false /\ Py.gt e M = false) /\
       (exists it d e, In it (map Item_init rows) /\ normalized it = Some (d, e) /\
                       (M = d \/ M = e))).
Proof.
  intros Hf Hc Hresp Hclean.
  destruct (export_kobo_items_runs SCRIPT_DIR remote g cache rows None c st
              Hf Hc Hresp Hclean) as (st' & tr & fuel0 & Ht & Hcr & Hrun & Hend).
  assert (Hall : List.filter (publishable None) (map Item_init rows) =
                 map Item_init rows).
  { apply filter_all. eapply Forall_impl; [exact Hclean|].
    intros it (_ & Hn & _). now apply publishable_None. }
  rewrite Hall in Hcr, Hend.
  exists st', fuel0. split; [exact Hrun|]. split; [|split].
  - rewrite (since_app st st' tr Ht), Hcr. apply omap_Forall2.
    rewrite List.Forall_forall in Hclean.
    intros it Hin. destruct (Hclean it Hin) as ([t Ht'] & Hn & Htxt).
    destruct (Htxt (publishable_None it Hn)) as [txt Htx].
    unfold page_of. rewrite Ht', Htx. eauto.
  - intros ->. exact Hend.
  - intros Hrows. destruct (map Item_init rows) as [|it items] eqn:Hitems.
    { destruct rows; [contradiction | discriminate]. }
    inversion Hclean as [|? ? (_ & [[d e] Hn] & _) _]; subst.
    simpl in Hend. rewrite Hn, bump_none, newest_some in Hend.
    destruct Hend as [Hc' Hf'].
    set (M := max_dates (str_max d e) items) in *.
    exists M. split; [assumption|]. split; [rewrite Hf'; apply lookup_insert_eq|].
    destruct (max_dates_is_max (str_max d e) items) as (Hw & Hub & Hat).
    fold M in Hw, Hub, Hat. split.
    + intros it' d' e' [<- | Hin] Hn'; [|now apply (Hub it')].
      rewrite Hn in Hn'. injection Hn' as <- <-.
      split; (eapply le_trans; [|exact Hw]); [apply str_max_l | apply str_max_r].
    + destruct Hat as [Hat | (it' & d' & e' & Hin & Hn' & Hat)].
      * exists it, d, e. split; [now left|]. split; [assumption|].
        rewrite Hat. apply str_max_cases.
      * exists it', d', e'. split; [now right | auto].
Qed.

End ExportMore.

(** ** More on the whole run *)

Section MainMore.

Context `{L : DatetimeLib}.
Variable SCRIPT_DIR : string.

Local Abbreviation config_path := (config_path SCRIPT_DIR).
Local Abbreviation database_path c :=
  (Py.path_join SCRIPT_DIR (kobo_database_path c)).
Local Abbreviation database_cache c :=
  (Py.path_join SCRIPT_DIR (kobo_database_cache c)).
Local Abbreviation retrieving :=
  (Log INFO "Retrieving database from e-reader" []).
Local Abbreviation parsing := (Log INFO "Parsing database" []).
Local Abbreviation finished := (Log INFO "Process finished" []).

(** X12: a run stops before anything else happens when the configuration
    cannot be used: with no configuration file it raises at once; with a
    stored watermark that no parser reads it raises the invalid-date error
    before the e-reader is looked for. Nothing is logged, sent or written. *)
Theorem unusable_configuration_stops_the_run remote fuel st :
  (fs st !! config_path = None ->
   main SCRIPT_DIR remote fuel st = (Raised Py.OSError, st)) /\
  (forall c, fs st !! config_path = Some (Yaml c) ->
     fromisoformat (configured_delta c) = None ->
     strptime (configured_delta c) "%Y-%m-%dT%H:%M:%SZ" = None ->
     exists st',
       main SCRIPT_DIR remote fuel st =
         (Raised (Py.ValueError "Invalid date format"), st') /\
       fs st' = fs st /\ trace st' = trace st /\ posts st' = posts st).
Proof.
  split.
  - intros Hf. unfold main, bind, get_fs, raise. now rewrite Hf.
  - intros c Hf Hiso Hz. unfold main, bind, get_fs, ret, put_config, lift, raise.
    rewrite Hf. unfold convert_date. rewrite Hiso, Hz.
    eexists. split; [reflexivity|]. auto.
Qed.

(** X13: whatever happens in a run, it writes no path but [config.yaml]
    and the configured cache: every other file, the e-reader's database
    among them when it is not the cache, is as before. *)
Theorem main_writes_only_cache_and_config remote fuel st o st' :
  main SCRIPT_DIR remote fuel st = (o, st') ->
  forall p, p <> config_path ->
    (forall c, fs st !! config_path = Some (Yaml c) -> p <> database_cache c) ->
    fs st' !! p = fs st !! p.
Proof.
  intros Hrun p Hp Hcache. revert Hrun.
  unfold main. unfold bind at 1. unfold get_fs. unfold bind at 1.
  destruct (fs st !! config_path) as [[q|c|s]|] eqn:Hf;
    try (unfold raise; now intros [= _ <-]).
  unfold ret at 1. unfold bind at 1. unfold put_config at 1. unfold bind at 1.
  destruct (convert_date (configured_delta c)) as [w|e];
    [|unfold lift, raise; now intros [= _ <-]].
  unfold lift, ret at 1.
  set (st0 := {| fs := fs st; config := Some c; trace := trace st;
                 posts := posts st |}).
  specialize (Hcache c eq_refl).
  unfold bind at 1.
  destruct (copy_database _ _ st0) as [o1 st1] eqn:Hcopy.
  apply copy_database_frame in Hcopy as (Hf1 & _).
  assert (H1 : fs st1 !! p = fs st !! p) by (now rewrite Hf1).
  destruct o1 as [[]| | |]; try (now intros [= _ <-]).
  unfold bind at 1.
  destruct (export_kobo_items _ _ _ _ _ _ st1) as [o2 st2] eqn:Hexp.
  apply export_kobo_items_writes in Hexp as [Hf2 _].
  assert (H2 : fs st2 !! p = fs st !! p).
  { rewrite Hf2; [assumption | assumption | now left]. }
  destruct o2 as [[]| | |]; unfold logging_info, emit; now intros [= _ <-].
Qed.

Context `{!DatetimeLibSpec L}.

(** The largest date of a run is a text the normaliser returned. *)
Lemma max_dates_normal (w0 w : string) (its : list Item) :
  convert_date w0 = Py.Ok w ->
  exists s, convert_date s = Py.Ok (max_dates w its).
Proof.
  intros Hw. destruct (max_dates_is_max w its) as (_ & _ & Hat).
  destruct Hat as [-> | (it & d & e & _ & Hn & Hat)]; [eauto|].
  unfold normalized in Hn.
  destruct (convert_date (datecreated it)) as [d'|] eqn:Hd; [|discriminate].
  destruct (convert_date (datemodified it)) as [e'|] eqn:He; [|discriminate].
  injection Hn as -> ->. destruct Hat as [-> | ->]; eauto.
Qed.

(** The largest date of a run has the canonical shape when the watermark
    and the dates of the items have it. *)
Lemma max_dates_canonical (w : string) (its : list Item) :
  is_canonical w = true ->
  Forall (fun it => forall d e, normalized it = Some (d, e) ->
                    is_canonical d = true /\ is_canonical e = true) its ->
  is_canonical (max_dates w its) = true.
Proof.
  intros Hw Hits. destruct (max_dates_is_max w its) as (_ & _ & Hat).
  destruct Hat as [-> | (it & d & e & Hin & Hn & Hat)]; [assumption|].
  rewrite List.Forall_forall in Hits.
  destruct (Hits it Hin d e Hn) as [Hd He]. destruct Hat as [-> | ->]; assumption.
Qed.

(** X14: a second run right after a run that returned publishes nothing,
    provided the watermark and the normalised dates of the rows have the
    shape YYYY-MM-DD HH:MM:SS (years of four digits): from the state the
    first run left, with the same database on the e-reader, the run returns
    for any service and any bound on the retries, sends no request and
    leaves [config] and all files as they were. *)
Theorem second_run_publishes_nothing remote c w rows st :
  fs st !! config_path = Some (Yaml c) ->
  convert_date (configured_delta c) = Py.Ok w ->
  is_canonical w = true ->
  Forall (fun it => forall d e, normalized it = Some (d, e) ->
                    is_canonical d = true /\ is_canonical e = true)
         (map Item_init rows) ->
  fs st !! database_path c = Some (Sqlite (Some rows)) ->
  database_path c <> database_cache c ->
  database_cache c <> config_path ->
  responsive remote ->
  Forall (runs_clean (Some w)) (map Item_init rows) ->
  exists st' fuel0,
    (forall fuel, fuel0 <= fuel ->
       main SCRIPT_DIR remote fuel st = (Returned tt, st')) /\
    forall remote' fuel',
      exists st'',
        main SCRIPT_DIR remote' fuel' st' = (Returned tt, st'') /\
        since st' st'' = [retrieving; parsing; finished] /\
        config st'' = config st' /\ fs st'' = fs st'.
Proof.
  intros Hf Hw Hcw Hcan Hdb Hne Hcc Hresp Hclean.
  set (items := map Item_init rows) in *.
  set (P := List.filter (publishable (Some w)) items).
  set (M := max_dates w P).
  assert (HcM : is_canonical M = true).
  { apply max_dates_canonical; [assumption|].
    rewrite List.Forall_forall in Hcan. apply List.Forall_forall.
    intros it Hin. apply Hcan. now apply List.filter_In in Hin as [Hin _]. }
  (* the first run *)
  set (st0 := {| fs := fs st; config := Some c; trace := trace st;
                 posts := posts st |}).
  destruct (copy_database_found _ _ _ st0 Hdb Hne)
    as (st1 & Hcopy & Hf1 & Hc1 & Ht1 & _).
  destruct (export_kobo_items_runs SCRIPT_DIR remote (globals_of c)
              (database_cache c) rows (Some w) c st1)
    as (st2 & tr & fuel0 & Ht2 & Hcr & Hrun & Hend); try assumption.
  { rewrite Hf1. apply lookup_insert_eq. }
  fold items P in Hend.
  pose proof (newest_published w items) as Hnew. cbv zeta in Hnew. fold P in Hnew.
  (* what the first run leaves *)
  set (c' := match newest None P with
             | Some l => set_delta_date c l | None => c end).
  assert (Hleft : config st2 = Some c' /\
                  fs st2 !! config_path = Some (Yaml c') /\
                  fs st2 !! database_path c = Some (Sqlite (Some rows)) /\
                  fs st2 !! database_cache c = Some (Sqlite (Some rows)) /\
                  convert_date (configured_delta c') = Py.Ok M /\
                  kobo_database_path c' = kobo_database_path c /\
                  kobo_database_cache c' = kobo_database_cache c).
  { assert (Hdc : database_path c <> config_path) by congruence.
    subst c'. destruct (newest None P) as [l|].
    - destruct Hend as [Hc2 Hf2]. destruct Hnew as (_ & -> & _).
      rewrite Hc2, Hf2, Hf1. split; [reflexivity|].
      split; [apply lookup_insert_eq|].
      rewrite !(lookup_insert_ne _ config_path) by congruence.
      rewrite lookup_insert_ne by congruence. rewrite lookup_insert_eq.
      split; [assumption|]. split; [reflexivity|]. split; [|split; reflexivity].
      destruct (max_dates_normal (configured_delta c) w P Hw) as [s Hs].
      apply (configured_delta_stored c s _ Hs HcM).
    - destruct Hend as [Hc2 Hf2]. rewrite Hc2, Hf2, Hc1, Hf1.
      split; [reflexivity|].
      rewrite !lookup_insert_ne by congruence. rewrite lookup_insert_eq.
      split; [assumption|]. split; [assumption|]. split; [reflexivity|].
      split; [|split; reflexivity]. subst M. now rewrite Hnew. }
  destruct Hleft as (Hc2 & Hfc2 & Hfd2 & Hfk2 & HwM & Hkp & Hkc).
  set (st' := snd (logging_info "Process finished" st2)).
  exists st', fuel0. split.
  { intros fuel Hfuel. rewrite (main_start SCRIPT_DIR remote fuel c w st Hf Hw).
    fold st0. unfold bind. rewrite Hcopy, (Hrun fuel Hfuel). reflexivity. }
  (* the second run *)
  intros remote' fuel'.
  rewrite (main_start SCRIPT_DIR remote' fuel' c' M st' Hfc2 HwM).
  rewrite Hkp, Hkc.
  set (s0 := {| fs := fs st'; config := Some c'; trace := trace st';
                posts := posts st' |}).
  destruct (copy_database_found (database_path c) (database_cache c)
              (Sqlite (Some rows)) s0 Hfd2 Hne)
    as (s1 & Hcopy' & Hg1 & Hd1 & Hu1 & _).
  assert (Hsame : fs s1 = fs st2).
  { rewrite Hg1. simpl. now apply insert_id. }
  assert (Hpk : fs s1 !! database_cache c = Some (Sqlite (Some rows))).
  { now rewrite Hsame. }
  destruct (parse_database_ok (database_cache c) rows s1 Hpk)
    as (s2 & Hparse & Hh2 & Hd2 & Hu2).
  eexists. unfold bind. rewrite Hcopy'.
  unfold export_kobo_items, bind. rewrite Hparse.
  rewrite export_loop_skips.
  - simpl. split; [reflexivity|]. split; [|split].
    + apply since_app. simpl. rewrite Hu2, Hu1. simpl.
      rewrite <- !app_assoc. reflexivity.
    + simpl. rewrite Hd2, Hd1. simpl. now rewrite Hc2.
    + simpl. now rewrite Hh2, Hsame.
  - pose proof (nothing_newer_than_max w items) as Hnone.
    cbv zeta in Hnone. fold P M in Hnone.
    rewrite List.Forall_forall in Hclean, Hnone. apply List.Forall_forall.
    intros it Hin. split; [|now apply Hnone].
    destruct (Hclean it Hin) as (Hty & Hnorm & _).
    split; [assumption|]. split; [assumption|].
    rewrite (Hnone it Hin). discriminate.
Qed.

End MainMore.

(** ** The further properties on the small world *)


Lemma second_export_publishes_nothing_witness :
  exists st' fuel0,
    (forall fuel, fuel0 <= fuel ->
       export_kobo_items (H := FixedWidth.lib) "/app" Example.steady fuel Example.g
         "/app/cache/KoboReader.sqlite" (Some NODELTA_DATE)
         (Example.ready NODELTA_DATE (Some Example.rows)) = (Returned tt, st')) /\
    exists st'',
      export_kobo_items (H := FixedWidth.lib) "/app" Example.flaky 0 Example.g
        "/app/cache/KoboReader.sqlite" (Some "2023-06-01 00:00:00") st' =
        (Returned tt, st'') /\
      config st'' = config st' /\ fs st'' = fs st'.
Proof.
  destruct (second_export_publishes_nothing (L := FixedWidth.lib) "/app"
              Example.steady Example.g "/app/cache/KoboReader.sqlite" Example.rows
              (Example.cfg NODELTA_DATE) NODELTA_DATE
              (Example.ready NODELTA_DATE (Some Example.rows))
              eq_refl eq_refl eq_refl ExampleFacts.steady_responsive
              (ExampleFacts.rows_clean NODELTA_DATE))
    as (st' & fuel0 & Hrun & Hagain).
  exists st', fuel0. split; [exact Hrun|].
  destruct (Hagain Example.flaky 0) as (st'' & Hrun' & _ & Hc & Hf).
  exists st''. split; [exact Hrun'|]. split; assumption.
Defined.

Lemma rows_clean_None :
  Forall (runs_clean (H := FixedWidth.lib) None) (map Item_init Example.rows).
Proof.
  repeat constructor; try (eexists; reflexivity); intros _; eexists; reflexivity.
Qed.

Lemma no_watermark_publishes_all_witness :
  exists st' fuel0,
    (forall fuel, fuel0 <= fuel ->
       export_kobo_items (H := FixedWidth.lib) "/app" Example.steady fuel Example.g
         "/app/cache/KoboReader.sqlite" None
         (Example.ready "" (Some Example.rows)) = (Returned tt, st')) /\
    length (created (since (Example.ready "" (Some Example.rows)) st')) = 3.
Proof.
  destruct (no_watermark_publishes_all (L := FixedWidth.lib) "/app"
              Example.steady Example.g "/app/cache/KoboReader.sqlite" Example.rows
              (Example.cfg "") (Example.ready "" (Some Example.rows))
              eq_refl eq_refl ExampleFacts.steady_responsive rows_clean_None)
    as (st' & fuel0 & Hrun & Hpages & _).
  exists st', fuel0. split; [exact Hrun|].
  apply Forall2_length in Hpages. rewrite <- Hpages. reflexivity.
Defined.

Lemma unusable_configuration_stops_the_run_witness :
  exists st',
    main (H := FixedWidth.lib) "/app" Example.steady 1 (Example.world "None" true) =
      (Raised (Py.ValueError "Invalid date format"), st') /\
    fs st' = fs (Example.world "None" true) /\
    trace st' = trace (Example.world "None" true) /\
    posts st' = posts (Example.world "None" true).
Proof.
  apply (proj2 (unusable_configuration_stops_the_run (L := FixedWidth.lib) "/app"
                  Example.steady 1 (Example.world "None" true))
               (Example.cfg "None")); reflexivity.
Defined.

Lemma main_writes_only_cache_and_config_witness :
  fs (snd (main (H := FixedWidth.lib) "/app" Example.steady 1 (Example.world "" true)))
    !! "/mnt/kobo/KoboReader.sqlite" =
  fs (Example.world "" true) !! "/mnt/kobo/KoboReader.sqlite".
Proof.
  apply (main_writes_only_cache_and_config (L := FixedWidth.lib) "/app"
           Example.steady 1 (Example.world "" true)
           (fst (main (H := FixedWidth.lib) "/app" Example.steady 1
                      (Example.world "" true)))).
  - apply surjective_pairing.
  - vm_compute. discriminate.
  - intros c Hc. vm_compute in Hc. injection Hc as <-. vm_compute. discriminate.
Defined.

Lemma second_run_publishes_nothing_witness :
  exists st' fuel0,
    (forall fuel, fuel0 <= fuel ->
       main (H := FixedWidth.lib) "/app" Example.steady fuel (Example.world "" true) =
       (Returned tt, st')) /\
    exists st'',
      main (H := FixedWidth.lib) "/app" Example.flaky 0 st' = (Returned tt, st'') /\
      config st'' = config st' /\ fs st'' = fs st'.
Proof.
  destruct (@second_run_publishes_nothing FixedWidth.lib "/app"
              FixedWidthFacts.lib_spec Example.steady (Example.cfg "") NODELTA_DATE
              Example.rows (Example.world "" true))
    as (st' & fuel0 & Hrun & Hagain).
  - vm_compute. reflexivity.
  - reflexivity.
  - reflexivity.
  - repeat constructor; injection H as <- <-; reflexivity.
  - vm_compute. reflexivity.
  - vm_compute. discriminate.
  - vm_compute. discriminate.
  - exact ExampleFacts.steady_responsive.
  - exact (ExampleFacts.rows_clean NODELTA_DATE).
  - exists st', fuel0. split; [exact Hrun|].
    destruct (Hagain Example.flaky 0) as (st'' & Hrun' & _ & Hc & Hf).
    exists st''. split; [exact Hrun'|]. split; assumption.
Defined.

(** ** Years below 1000 *)

(** The text written for a date of the year 999 sorts after a text of 2023,
    though the date is earlier. *)
Example short_year_sorts_late :
  strftime (mk_datetime 999 12 31 23 59 59) = "999-12-31 23:59:59" /\
  String.ltb "999-12-31 23:59:59" "2023-01-01 00:00:00" = false /\
  (instant (mk_datetime 999 12 31 23 59 59) <
   instant (mk_datetime 2023 1 1 0 0 0))%N.
Proof. vm_compute. repeat split. Qed.

(** A row dated in the year 999 is published by a first run, which stores
    the text of eighteen characters as the watermark; the next run cannot
    read it and stops at its start. *)
Example short_year_stops_the_next_run :
  let first := main (H := FixedWidth.lib) "/app" Example.steady 1
                    Scenario.world_year_999 in
  fst first = Returned tt /\
  length (created (trace (snd first))) = 1 /\
  config (snd first) = Some (Example.cfg "999-12-31 23:59:59") /\
  fst (main (H := FixedWidth.lib) "/app" Example.steady 1 (snd first)) =
    Raised (Py.ValueError "Invalid date format").
Proof. vm_compute. repeat split. Qed.
